(** * The payment lifecycle controller of [src/pay/components/PayProvider.tsx]

    A shallow embedding of [PayProvider]: the React state of the component
    (lifecycle status, charge id, transaction id, error message), the
    asynchronous callback [handleSubmit] and the two [useEffect] bodies that
    echo the submission status and the transaction receipt into the lifecycle
    status.

    [handleSubmit] is an [async] function with a [try]/[catch] around its
    whole body.  It is embedded in a small monad [Async] that threads the
    component state, records every call made to a collaborator (wallet
    connection, contract hydration, chain switch, batch submission,
    [window.open]) in a log, and completes either normally or with a thrown
    value. *)

From Stdlib Require Import String Ascii List ZArith Bool Lia.
Import ListNotations.
Open Scope string_scope.

Set Implicit Arguments.

(** ** JavaScript strings *)

(** [s.includes(pat)]: [pat] occurs in [s] as a contiguous substring. *)
Fixpoint includes (s pat : string) : bool :=
  if String.prefix pat s then true
  else match s with
       | EmptyString => false
       | String _ rest => includes rest pat
       end.

(** ** Enumerations of [../constants] *)

(** Modelled from the spec: the declaration of [PAY_LIFECYCLESTATUS] is in
    [../constants], which is not part of the sources at hand; the spec lists
    the states [INIT], [PENDING], [SUCCESS] and [ERROR], the four members
    [PayProvider] uses. *)
Module PAY_LIFECYCLESTATUS.
Inductive t : Set := INIT | PENDING | SUCCESS | ERROR.

Definition eqb (a b : t) : bool :=
  match a, b with
  | INIT, INIT | PENDING, PENDING | SUCCESS, SUCCESS | ERROR, ERROR => true
  | _, _ => false
  end.

(** Position of a status on the happy path and its failure exits:
    [INIT] comes first, [PENDING] second, [SUCCESS] and [ERROR] last. *)
Definition rank (a : t) : nat :=
  match a with
  | INIT => 0
  | PENDING => 1
  | SUCCESS | ERROR => 2
  end.
End PAY_LIFECYCLESTATUS.

(** Modelled from the spec: the declaration of [PayErrorCode] is in
    [../constants], which is not part of the sources at hand; the spec gives
    the closed enumeration [INSUFFICIENT_BALANCE], [USER_REJECTED_ERROR],
    [UNEXPECTED_ERROR], the three members [PayProvider] uses. *)
Module PayErrorCode.
Inductive t : Set := INSUFFICIENT_BALANCE | USER_REJECTED_ERROR | UNEXPECTED_ERROR.

Definition eqb (a b : t) : bool :=
  match a, b with
  | INSUFFICIENT_BALANCE, INSUFFICIENT_BALANCE
  | USER_REJECTED_ERROR, USER_REJECTED_ERROR
  | UNEXPECTED_ERROR, UNEXPECTED_ERROR => true
  | _, _ => false
  end.
End PayErrorCode.

(** ** What [PayProvider.tsx] imports

    The component imports its message constants, the rejection classifier
    and its types from modules that are not among the sources; the types of
    the values that cross the collaborator boundary (errors, prices, call
    payloads, receipts) are declared there too.  They are taken as
    parameters: every statement below holds for each way of filling them
    in. *)
Class Imports : Type := {
  (** an object that is thrown, or reported in the [error] field of the
      hydration result: reading its properties does not throw, and its
      [name] and [message] are strings or missing *)
  JsError : Type;
  error_name : JsError -> option string;
  error_message : JsError -> option string;
  (** [JSON.stringify(error)]: the text, or [None] when the call throws a
      [TypeError] (a [BigInt] or a cycle among the enumerable properties) *)
  JSON_stringify : JsError -> option string;
  (** the [TypeError] the runtime throws for a property read on [undefined]
      or [null] and for a failed [JSON.stringify] *)
  TypeError : JsError;
  (** [isUserRejectedRequestError] of [../../transaction/utils] *)
  isUserRejectedRequestError : JsError -> bool;
  (** the type of [priceInUSDC] and its JavaScript truthiness, which is what
      [insufficientBalance && priceInUSDC] tests *)
  Price : Type;
  price_truthy : Price -> bool;
  (** one call payload of the [contracts] list *)
  Contract : Type;
  (** what [useWaitForTransactionReceipt] yields *)
  TransactionReceipt : Type;
  (** [base.id] of [viem/chains] *)
  base_id : Z;
  (** the constants of [../constants] *)
  GENERIC_ERROR_MESSAGE : string;
  NO_CONNECTED_ADDRESS_ERROR : string;
  NO_CONTRACTS_ERROR : string;
  USER_REJECTED_ERROR : string;
  PAY_INSUFFICIENT_BALANCE_ERROR : string;
  PAY_INSUFFICIENT_BALANCE_ERROR_MESSAGE : Price -> string
}.

(** ** Data model *)

Section DataModel.
Context {I : Imports}.

(** The [statusData] payload.  [{}] is [emptyData]; an [ERROR] status fills
    [code], [error], [message]; a [SUCCESS] status fills
    [transactionReceipts], [chargeId] (here [dataChargeId]) and
    [receiptUrl]. *)
Record StatusData : Type := {
  code : option PayErrorCode.t;
  error : option string;
  message : option string;
  transactionReceipts : option (list TransactionReceipt);
  dataChargeId : option string;
  receiptUrl : option string
}.

Definition emptyData : StatusData :=
  {| code := None; error := None; message := None;
     transactionReceipts := None; dataChargeId := None; receiptUrl := None |}.

Record LifecycleStatus : Type := {
  statusName : PAY_LIFECYCLESTATUS.t;
  statusData : StatusData
}.

(** The React state of one mounted [PayProvider]: the [useState] cells
    [chargeId], [transactionId], [errorMessage] and the cell held by
    [useLifecycleStatus]. *)
Record PayProviderState : Type := {
  lifecycleStatus : LifecycleStatus;
  chargeId : string;
  transactionId : string;
  errorMessage : string
}.

(** State at mount: [useState('')] three times and
    [useLifecycleStatus({ statusName: INIT, statusData: {} })]. *)
Definition initialState : PayProviderState :=
  {| lifecycleStatus :=
       {| statusName := PAY_LIFECYCLESTATUS.INIT; statusData := emptyData |};
     chargeId := "";
     transactionId := "";
     errorMessage := "" |}.

(** What a promise rejects with, and so what [catch (error)] binds: any
    value, among them [undefined] and [null], on which a property read
    throws. *)
Inductive Exception : Type :=
| Nullish
| ErrorObject (e : JsError).

(** How a promise returned by a collaborator settles. *)
Inductive Settled (A : Type) : Type :=
| Fulfilled (a : A)
| Rejected (e : Exception).
Arguments Rejected {A} e.

(** Result of [connectAsync]. *)
Record ConnectResult : Type := {
  accounts : list string;
  connectedChainId : Z
}.

(** Result of [fetchContracts]: the fields [handleSubmit] destructures,
    [chargeId] under the name the code gives it. *)
Record Hydration : Type := {
  contracts : option (list Contract);
  hydratedChargeId : string;
  insufficientBalance : bool;
  priceInUSDC : option Price;
  hydrationError : option JsError
}.

(** Everything outside the component that one run of [handleSubmit] can
    observe: the account reported by [useAccount], the wallet kind, and how
    each collaborator answers when called. *)
Record World : Type := {
  address : option string;
  chainId : option Z;
  isConnected : bool;
  isSmartWallet : bool;
  connectAsync : Settled ConnectResult;
  fetchContracts : string -> Settled Hydration;
  switchChainAsync : Z -> Settled unit;
  writeContractsAsync : list Contract -> Settled string
}.

(** A call that leaves the component. *)
Inductive Call : Type :=
| CallWindowOpen (url target features : string)
| CallConnectAsync (preference : string)
| CallFetchContracts (connectedAddress : string)
| CallSwitchChainAsync (targetChainId : Z)
| CallWriteContractsAsync (cs : list Contract).

(** The connection, hydration, chain-switch and batch-submission services,
    as opposed to [window.open]. *)
Definition is_service_call (c : Call) : bool :=
  match c with
  | CallWindowOpen _ _ _ => false
  | _ => true
  end.

Definition is_write_call (c : Call) : bool :=
  match c with
  | CallWriteContractsAsync _ => true
  | _ => false
  end.

(** ** The [Async] monad *)

Record Store : Type := {
  state : PayProviderState;
  calls : list Call
}.

Inductive Completion (A : Type) : Type :=
| Returned (a : A)
| Thrown (e : Exception).
Arguments Thrown {A} e.

Definition Async (A : Type) : Type := Store -> Completion A * Store.

Definition ret {A} (a : A) : Async A := fun s => (Returned a, s).

Definition bind {A B} (m : Async A) (k : A -> Async B) : Async B :=
  fun s =>
    match m s with
    | (Returned a, s') => k a s'
    | (Thrown e, s') => (Thrown e, s')
    end.

(** [try { body } catch (error) { handler }]: state changes and calls made
    before the throw stay. *)
Definition tryCatch {A} (body : Async A) (handler : Exception -> Async A) : Async A :=
  fun s =>
    match body s with
    | (Returned a, s') => (Returned a, s')
    | (Thrown e, s') => handler e s'
    end.

Definition throw {A} (e : Exception) : Async A :=
  fun s => (Thrown e, s).

Definition getState : Async PayProviderState :=
  fun s => (Returned (state s), s).

Definition modifyState (f : PayProviderState -> PayProviderState) : Async unit :=
  fun s => (Returned tt, {| state := f (state s); calls := calls s |}).

(** [await] of a collaborator's promise: the call is logged, then the
    promise's value is returned or its rejection thrown. *)
Definition await {A} (c : Call) (p : Settled A) : Async A :=
  fun s =>
    let s' := {| state := state s; calls := calls s ++ [c] |} in
    match p with
    | Fulfilled a => (Returned a, s')
    | Rejected e => (Thrown e, s')
    end.

(** [window.open(url, target, features)] *)
Definition window_open (url target features : string) : Async unit :=
  fun s => (Returned tt, {| state := state s;
                            calls := calls s ++ [CallWindowOpen url target features] |}).
End DataModel.

Arguments Rejected {I A} e.
Arguments Thrown {I A} e.

Declare Scope async_scope.
Delimit Scope async_scope with async.
Notation "x <- m ;; k" := (bind m (fun x => k))
  (at level 61, m at next level, right associativity) : async_scope.
Notation "m ;; k" := (bind m (fun _ => k))
  (at level 61, right associativity) : async_scope.
Open Scope async_scope.

(** ** The component *)

Section PayProvider.
Context {I : Imports}.

Definition setChargeId (v : string) : Async unit :=
  modifyState (fun st =>
    {| lifecycleStatus := lifecycleStatus st; chargeId := v;
       transactionId := transactionId st; errorMessage := errorMessage st |}).

Definition setTransactionId (v : string) : Async unit :=
  modifyState (fun st =>
    {| lifecycleStatus := lifecycleStatus st; chargeId := chargeId st;
       transactionId := v; errorMessage := errorMessage st |}).

Definition setErrorMessage (v : string) : Async unit :=
  modifyState (fun st =>
    {| lifecycleStatus := lifecycleStatus st; chargeId := chargeId st;
       transactionId := transactionId st; errorMessage := v |}).

(** Modelled from the spec: [updateLifecycleStatus] is returned by the hook
    [useLifecycleStatus] of [../hooks], which is not part of the sources at
    hand.  The spec describes each call as a transition to the given status
    carrying the given data, exactly one status being active at a time: the
    new status replaces the current one. *)
Definition updateLifecycleStatus (newStatus : LifecycleStatus) : Async unit :=
  modifyState (fun st =>
    {| lifecycleStatus := newStatus; chargeId := chargeId st;
       transactionId := transactionId st; errorMessage := errorMessage st |}).

Definition errorStatus (c : PayErrorCode.t) (err msg : option string) : LifecycleStatus :=
  {| statusName := PAY_LIFECYCLESTATUS.ERROR;
     statusData :=
       {| code := Some c; error := err; message := msg;
          transactionReceipts := None; dataChargeId := None; receiptUrl := None |} |}.

(** [`https://commerce.coinbase.com/pay/${chargeId}/receipt`] *)
Definition receiptUrlOf (charge : string) : string :=
  "https://commerce.coinbase.com/pay/" ++ charge ++ "/receipt".

(** [lifecycleStatus.statusName === ERROR &&
     lifecycleStatus.statusData?.code === PayErrorCode.INSUFFICIENT_BALANCE] *)
Definition isInsufficientBalanceError (l : LifecycleStatus) : bool :=
  PAY_LIFECYCLESTATUS.eqb (statusName l) PAY_LIFECYCLESTATUS.ERROR
  && match code (statusData l) with
     | Some c => PayErrorCode.eqb c PayErrorCode.INSUFFICIENT_BALANCE
     | None => false
     end.

(** [connectedChainId !== base.id] *)
Definition differsFromBase (c : option Z) : bool :=
  match c with
  | None => true
  | Some z => negb (Z.eqb z base_id)
  end.

(** [insufficientBalance && priceInUSDC]: the price when the condition is
    truthy, that is when the flag is set and the price is present and
    truthy. *)
Definition balanceCheck (h : Hydration) : option Price :=
  if insufficientBalance h then
    match priceInUSDC h with
    | Some p => if price_truthy p then Some p else None
    | None => None
    end
  else None.

(** [writeContractsAsync({ contracts })] of [useWriteContracts], with the
    [mutation.onSuccess] callback the component installs:
    [setTransactionId(id)]. *)
Definition callWriteContractsAsync (w : World) (cs : list Contract) : Async unit :=
  id <- await (CallWriteContractsAsync cs) (writeContractsAsync w cs) ;;
  setTransactionId id.

(** Lines 156-166: the connected address and chain, after prompting for a
    wallet connection when needed. *)
Definition resolveConnection (w : World) : Async (option string * option Z) :=
  if negb (isConnected w) || negb (isSmartWallet w) then
    r <- await (CallConnectAsync "smartWalletOnly") (connectAsync w) ;;
    ret (hd_error (accounts r), Some (connectedChainId r))
  else
    ret (address w, chainId w).

(** Lines 206-242: what [handleSubmit] does with a hydration result that
    carries no error. *)
Definition submitHydrated (w : World) (connectedChainId : option Z)
    (h : Hydration) : Async unit :=
  setChargeId (hydratedChargeId h) ;;
  (if differsFromBase connectedChainId
   then await (CallSwitchChainAsync base_id) (switchChainAsync w base_id)
   else ret tt) ;;
  match balanceCheck h with
  | Some p =>
      setErrorMessage (PAY_INSUFFICIENT_BALANCE_ERROR_MESSAGE p) ;;
      updateLifecycleStatus
        (errorStatus PayErrorCode.INSUFFICIENT_BALANCE
           (Some PAY_INSUFFICIENT_BALANCE_ERROR)
           (Some (PAY_INSUFFICIENT_BALANCE_ERROR_MESSAGE p)))
  | None =>
      match contracts h with
      | None | Some [] =>
          setErrorMessage GENERIC_ERROR_MESSAGE ;;
          updateLifecycleStatus
            (errorStatus PayErrorCode.UNEXPECTED_ERROR
               (Some NO_CONTRACTS_ERROR) (Some NO_CONTRACTS_ERROR))
      | Some cs => callWriteContractsAsync w cs
      end
  end.

(** Lines 156-242: a fresh attempt, entered when the status is neither
    [SUCCESS] nor [ERROR] with code [INSUFFICIENT_BALANCE]. *)
Definition freshAttempt (w : World) : Async unit :=
  conn <- resolveConnection w ;;
  let '(connectedAddress, connectedChainId) := conn in
  match connectedAddress with
  | None | Some "" =>
      setErrorMessage GENERIC_ERROR_MESSAGE ;;
      updateLifecycleStatus
        (errorStatus PayErrorCode.UNEXPECTED_ERROR
           (Some NO_CONNECTED_ADDRESS_ERROR) (Some NO_CONNECTED_ADDRESS_ERROR))
  | Some a =>
      h <- await (CallFetchContracts a) (fetchContracts w a) ;;
      match hydrationError h with
      | Some err =>
          setErrorMessage GENERIC_ERROR_MESSAGE ;;
          updateLifecycleStatus
            (errorStatus PayErrorCode.UNEXPECTED_ERROR (error_name err) (error_message err))
      | None => submitHydrated w connectedChainId h
      end
  end.

(** The body of the [try] block of [handleSubmit] (lines 133-242). *)
Definition handleSubmit_try (w : World) : Async unit :=
  st <- getState ;;
  if PAY_LIFECYCLESTATUS.eqb (statusName (lifecycleStatus st)) PAY_LIFECYCLESTATUS.SUCCESS then
    window_open (receiptUrlOf (chargeId st)) "_blank" "noopener,noreferrer"
  else if isInsufficientBalanceError (lifecycleStatus st) then
    window_open "https://keys.coinbase.com/fund" "_blank" "noopener,noreferrer"
  else
    freshAttempt w.

(** [(error as Error).message?.includes('User denied connection request')
     || isUserRejectedRequestError(error)] *)
Definition isUserRejectedError (e : JsError) : bool :=
  match error_message e with
  | Some m => includes m "User denied connection request"
  | None => false
  end
  || isUserRejectedRequestError e.

(** The [catch (error)] block of [handleSubmit] (lines 243-262).  Nothing
    guards [error] itself: on [undefined] or [null] the read of [.message]
    on line 245 throws before anything is set.  On an object, line 254 sets
    [errorMessage]; then the argument of [updateLifecycleStatus] is built,
    and when [JSON.stringify(error)] throws there (line 259) the status is
    not updated.  What the block throws leaves [handleSubmit]. *)
Definition handleSubmit_catch (error : Exception) : Async unit :=
  match error with
  | Nullish => throw (ErrorObject TypeError)
  | ErrorObject e =>
      let errorCode :=
        if isUserRejectedError e then PayErrorCode.USER_REJECTED_ERROR
        else PayErrorCode.UNEXPECTED_ERROR in
      let errorMessage :=
        if isUserRejectedError e then USER_REJECTED_ERROR
        else GENERIC_ERROR_MESSAGE in
      setErrorMessage errorMessage ;;
      match JSON_stringify e with
      | Some json =>
          updateLifecycleStatus
            (errorStatus errorCode (Some json) (Some errorMessage))
      | None => throw (ErrorObject TypeError)
      end
  end.


Definition handleSubmit (w : World) : Async unit :=
  tryCatch (handleSubmit_try w) handleSubmit_catch.

(** One invocation of [submit()] on the component in state [st], the call
    log starting empty. *)
Definition runSubmit (w : World) (st : PayProviderState) : Completion unit * Store :=
  handleSubmit w {| state := st; calls := [] |}.

Definition submit_completion (w : World) (st : PayProviderState) : Completion unit :=
  fst (runSubmit w st).

Definition submit_state (w : World) (st : PayProviderState) : PayProviderState :=
  state (snd (runSubmit w st)).

Definition submit_calls (w : World) (st : PayProviderState) : list Call :=
  calls (snd (runSubmit w st)).

(** The same for the [try] block alone, before any [catch]. *)
Definition runTry (w : World) (st : PayProviderState) : Completion unit * Store :=
  handleSubmit_try w {| state := st; calls := [] |}.

(** A [submit()] that was suspended at [await fetchContracts(...)] resumes,
    once the hydration result [h] without error is there, with the rest of
    the [try] block under the same [catch], on whatever the state has become
    in the meantime. *)
Definition resumeHydrated (w : World) (connectedChainId : option Z) (h : Hydration)
  : Async unit :=
  tryCatch (submitHydrated w connectedChainId h) handleSubmit_catch.

(** ** The effects *)

(** Lines 105-113: [if (status === 'pending') updateLifecycleStatus(PENDING, {})],
    run on a notification of the submission status. *)
Definition pendingEffect (status : string) : Async unit :=
  if String.eqb status "pending" then
    updateLifecycleStatus
      {| statusName := PAY_LIFECYCLESTATUS.PENDING; statusData := emptyData |}
  else ret tt.

(** Lines 115-128: [if (!receipt) return; updateLifecycleStatus(SUCCESS, ...)],
    run on a change of the receipt. *)
Definition receiptEffect (receipt : option TransactionReceipt) : Async unit :=
  match receipt with
  | None => ret tt
  | Some r =>
      st <- getState ;;
      updateLifecycleStatus
        {| statusName := PAY_LIFECYCLESTATUS.SUCCESS;
           statusData :=
             {| code := None; error := None; message := None;
                transactionReceipts := Some [r];
                dataChargeId := Some (chargeId st);
                receiptUrl := Some (receiptUrlOf (chargeId st)) |} |}
  end.

(** An effect as a state transformer. *)
Definition effect_state (m : Async unit) (st : PayProviderState) : PayProviderState :=
  state (snd (m {| state := st; calls := [] |})).

Definition onWriteStatus (status : string) : PayProviderState -> PayProviderState :=
  effect_state (pendingEffect status).

Definition onReceipt (receipt : option TransactionReceipt)
  : PayProviderState -> PayProviderState :=
  effect_state (receiptEffect receipt).

(** [n] notifications of the same submission status in a row. *)
Fixpoint notified (status : string) (n : nat) (st : PayProviderState)
  : PayProviderState :=
  match n with
  | O => st
  | S m => onWriteStatus status (notified status m st)
  end.

(** ** The controller as an event-driven machine *)

(** One run of one piece of the component's code: [handleSubmit] from call
    to completion in a given world, the pending effect with the submission
    status it sees, the receipt effect with the receipt it sees.  When an
    effect runs is React's decision, from the dependency arrays: the pending
    effect after [status] changed (line 113), the receipt effect after
    [receipt] or [chargeId] changed (line 128).  So a [submit()] that stores
    a new charge identifier while a receipt is held is followed by a run of
    the receipt effect with that receipt, which is an event of its own
    here. *)
Inductive Event : Type :=
| EvSubmit (w : World)
| EvWriteStatus (status : string)
| EvReceipt (receipt : option TransactionReceipt).

(** What one such run does to the state: for [EvSubmit], the writes of
    [handleSubmit] itself. *)
Definition step (st : PayProviderState) (ev : Event) : PayProviderState :=
  match ev with
  | EvSubmit w => submit_state w st
  | EvWriteStatus s => onWriteStatus s st
  | EvReceipt r => onReceipt r st
  end.

Definition run (st : PayProviderState) (evs : list Event) : PayProviderState :=
  fold_left step evs st.

(** ** Observations on one attempt *)

(** What the hydration service reported in the attempt, if it was called
    and its promise was fulfilled. *)
Definition hydrationReport (w : World) (st : PayProviderState) : option Hydration :=
  match find (fun c => match c with CallFetchContracts _ => true | _ => false end)
             (submit_calls w st) with
  | Some (CallFetchContracts a) =>
      match fetchContracts w a with
      | Fulfilled h => Some h
      | Rejected _ => None
      end
  | _ => None
  end.

(** The chain-switch service was called in the attempt and rejected. *)
Definition switchRejected (w : World) (st : PayProviderState) : bool :=
  existsb (fun c => match c with
                    | CallSwitchChainAsync z =>
                        match switchChainAsync w z with
                        | Rejected _ => true
                        | Fulfilled _ => false
                        end
                    | _ => false
                    end)
          (submit_calls w st).

Definition statusOf (st : PayProviderState) : PAY_LIFECYCLESTATUS.t :=
  statusName (lifecycleStatus st).

Definition codeOf (st : PayProviderState) : option PayErrorCode.t :=
  code (statusData (lifecycleStatus st)).
End PayProvider.

(** ** A concrete filling of the imports, and concrete worlds

    Used to run the model on explicit inputs. *)

Record SampleError : Type := {
  sampleName : string;
  sampleMessage : option string;
  sampleClassifiedAsRejection : bool;
  (** what [JSON.stringify] gives for it, [None] when it throws *)
  sampleJson : option string
}.

Definition sampleImports : Imports := {|
  JsError := SampleError;
  error_name := fun e => Some (sampleName e);
  error_message := sampleMessage;
  JSON_stringify := sampleJson;
  TypeError :=
    {| sampleName := "TypeError";
       sampleMessage := Some "Cannot read properties of undefined";
       sampleClassifiedAsRejection := false;
       sampleJson := Some "{}" |};
  isUserRejectedRequestError := sampleClassifiedAsRejection;
  Price := string;
  price_truthy := fun p => negb (String.eqb p "");
  Contract := string;
  TransactionReceipt := string;
  base_id := 8453%Z;
  GENERIC_ERROR_MESSAGE := "Something went wrong. Please try again.";
  NO_CONNECTED_ADDRESS_ERROR := "No connected address";
  NO_CONTRACTS_ERROR := "Contracts are not available";
  USER_REJECTED_ERROR := "Request denied.";
  PAY_INSUFFICIENT_BALANCE_ERROR := "User has insufficient balance";
  PAY_INSUFFICIENT_BALANCE_ERROR_MESSAGE :=
    fun p => "You need at least " ++ p ++ " USDC to continue with payment"
|}.

Definition sampleHydration : @Hydration sampleImports :=
  @Build_Hydration sampleImports
    (Some ["approve"; "transferTokenPreApproved"]) (* contracts *)
    "charge-1"                                     (* chargeId *)
    false                                          (* insufficientBalance *)
    (Some "10.00")                                 (* priceInUSDC *)
    None                                           (* error *).

(** A Coinbase smart wallet connected on [chain], where hydration answers
    [hyd], the chain switch answers [sw] and the batch submission answers
    [wr]. *)
Definition connectedWorld (chain : Z)
    (hyd : @Settled sampleImports (@Hydration sampleImports))
    (sw : @Settled sampleImports unit)
    (wr : @Settled sampleImports string) : @World sampleImports :=
  @Build_World sampleImports
    (Some "0xA11CE")                               (* address *)
    (Some chain)                                   (* chainId *)
    true                                           (* isConnected *)
    true                                           (* isSmartWallet *)
    (Fulfilled {| accounts := ["0xA11CE"]; connectedChainId := chain |})
    (fun _ => hyd)                                 (* fetchContracts *)
    (fun _ => sw)                                  (* switchChainAsync *)
    (fun _ => wr)                                  (* writeContractsAsync *).

(** No wallet connected yet; the connection prompt answers [conn]. *)
Definition disconnectedWorld
    (conn : @Settled sampleImports ConnectResult)
    : @World sampleImports :=
  @Build_World sampleImports
    None                                           (* address *)
    None                                           (* chainId *)
    false                                          (* isConnected *)
    false                                          (* isSmartWallet *)
    conn                                           (* connectAsync *)
    (fun _ => Fulfilled sampleHydration)           (* fetchContracts *)
    (fun _ => Fulfilled tt)                        (* switchChainAsync *)
    (fun _ => @Fulfilled sampleImports string "tx-1").

Definition okWorld : @World sampleImports :=
  connectedWorld 8453 (Fulfilled sampleHydration) (Fulfilled tt) (@Fulfilled sampleImports string "tx-1").

Definition userDenied : SampleError :=
  {| sampleName := "Error";
     sampleMessage := Some "Request failed: User denied connection request.";
     sampleClassifiedAsRejection := false;
     sampleJson := Some "{}" |}.

Definition networkDown : SampleError :=
  {| sampleName := "HttpRequestError";
     sampleMessage := Some "fetch failed";
     sampleClassifiedAsRejection := false;
     sampleJson := Some "{}" |}.


(** A hydration result with the given fields and no error. *)
Definition hydrationOf (cs : option (list string)) (insufficient : bool)
    (price : option string) : @Hydration sampleImports :=
  @Build_Hydration sampleImports cs "charge-1" insufficient price None.

(** The hydration service fails and says so in its result: no contracts, a
    charge id, and the error. *)
Definition failedHydration : @Hydration sampleImports :=
  @Build_Hydration sampleImports None "charge-9" false None (Some networkDown).

(** The user declines the wallet prompt for the chain switch. *)
Definition switchDeclined : SampleError :=
  {| sampleName := "UserRejectedRequestError";
     sampleMessage := Some "User rejected the request.";
     sampleClassifiedAsRejection := true;
     sampleJson := Some "{}" |}.

(** The user declines the connection prompt. *)
Definition connectionDeniedWorld : @World sampleImports :=
  disconnectedWorld (@Rejected sampleImports _ (@ErrorObject sampleImports userDenied)).

(** Hydration fails and reports it in its result. *)
Definition hydrationErrorWorld : @World sampleImports :=
  connectedWorld 8453 (Fulfilled failedHydration) (Fulfilled tt)
    (@Fulfilled sampleImports string "tx-1").

(** The wallet is on chain 1, hydration reports an insufficient balance and
    the price, and the user declines the switch to the target chain. *)
Definition insufficientThenSwitchDeclinedWorld : @World sampleImports :=
  connectedWorld 1
    (Fulfilled (hydrationOf (Some ["approve"; "transferTokenPreApproved"]) true (Some "10.00")))
    (@Rejected sampleImports _ (@ErrorObject sampleImports switchDeclined))
    (@Fulfilled sampleImports string "tx-1").

(** Hydration reports an insufficient balance and the price, on the target
    chain. *)
Definition insufficientWorld : @World sampleImports :=
  connectedWorld 8453
    (Fulfilled (hydrationOf (Some ["approve"; "transferTokenPreApproved"]) true (Some "10.00")))
    (Fulfilled tt)
    (@Fulfilled sampleImports string "tx-1").

(** Hydration reports an empty contracts list together with an insufficient
    balance and the price. *)
Definition emptyContractsInsufficientWorld : @World sampleImports :=
  connectedWorld 8453
    (Fulfilled (hydrationOf (Some []) true (Some "10.00")))
    (Fulfilled tt)
    (@Fulfilled sampleImports string "tx-1").

(** Hydration reports an empty contracts list and nothing else of note. *)
Definition emptyContractsWorld : @World sampleImports :=
  connectedWorld 8453
    (Fulfilled (hydrationOf (Some []) false (Some "10.00")))
    (Fulfilled tt)
    (@Fulfilled sampleImports string "tx-1").

(** Hydration reports an insufficient balance but no price. *)
Definition insufficientNoPriceWorld : @World sampleImports :=
  connectedWorld 8453
    (Fulfilled (hydrationOf (Some ["approve"; "transferTokenPreApproved"]) true None))
    (Fulfilled tt)
    (@Fulfilled sampleImports string "tx-1").

(** The same on chain 1, the user declining the switch to the target
    chain. *)
Definition insufficientNoPriceSwitchDeclinedWorld : @World sampleImports :=
  connectedWorld 1
    (Fulfilled (hydrationOf (Some ["approve"; "transferTokenPreApproved"]) true None))
    (@Rejected sampleImports _ (@ErrorObject sampleImports switchDeclined))
    (@Fulfilled sampleImports string "tx-1").



(** An error object that holds a [BigInt]: [JSON.stringify] throws on it. *)
Definition unserialisableError : SampleError :=
  {| sampleName := "ContractFunctionExecutionError";
     sampleMessage := Some "The contract function reverted.";
     sampleClassifiedAsRejection := false;
     sampleJson := None |}.

(** The batch submission rejects with that error. *)
Definition unserialisableRejectionWorld : @World sampleImports :=
  connectedWorld 8453 (Fulfilled sampleHydration) (Fulfilled tt)
    (@Rejected sampleImports _ (@ErrorObject sampleImports unserialisableError)).

(** The state after a receipt arrived for charge [charge-1]. *)
Definition paidState : @PayProviderState sampleImports :=
  @onReceipt sampleImports (Some "receipt-1")
    (@submit_state sampleImports okWorld initialState).

(** ** Observations on the collaborators *)

Section Observations.
Context {I : Imports}.

(** The rejection a call meets in world [w], if it is rejected there. *)
Definition rejectionOf (w : World) (c : Call) : option Exception :=
  match c with
  | CallWindowOpen _ _ _ => None
  | CallConnectAsync _ =>
      match connectAsync w with Rejected e => Some e | Fulfilled _ => None end
  | CallFetchContracts a =>
      match fetchContracts w a with Rejected e => Some e | Fulfilled _ => None end
  | CallSwitchChainAsync z =>
      match switchChainAsync w z with Rejected e => Some e | Fulfilled _ => None end
  | CallWriteContractsAsync cs =>
      match writeContractsAsync w cs with Rejected e => Some e | Fulfilled _ => None end
  end.

Fixpoint firstRejection (w : World) (cs : list Call) : option Exception :=
  match cs with
  | [] => None
  | c :: rest =>
      match rejectionOf w c with
      | Some e => Some e
      | None => firstRejection w rest
      end
  end.

(** The exception a collaborator threw during the attempt, if one did. *)
Definition collaboratorThrew (w : World) (st : PayProviderState) : option Exception :=
  firstRejection w (submit_calls w st).



(** The status is one of the two that end an attempt. *)
Definition terminal (s : PAY_LIFECYCLESTATUS.t) : bool :=
  match s with
  | PAY_LIFECYCLESTATUS.SUCCESS | PAY_LIFECYCLESTATUS.ERROR => true
  | _ => false
  end.
End Observations.

(** ** Further observations on one attempt *)

Section Coverage.
Context {I : Imports}.

(** The two guards of lines 134-154 let the attempt through: the status is
    neither [SUCCESS] nor [ERROR] with code [INSUFFICIENT_BALANCE]. *)
Definition isFresh (st : PayProviderState) : bool :=
  negb (PAY_LIFECYCLESTATUS.eqb (statusName (lifecycleStatus st))
          PAY_LIFECYCLESTATUS.SUCCESS)
  && negb (isInsufficientBalanceError (lifecycleStatus st)).

(** [!isConnected || !isSmartWallet] (line 158) *)
Definition promptsForConnection (w : World) : bool :=
  negb (isConnected w) || negb (isSmartWallet w).

(** The values of [connectedAddress] and [connectedChainId] after lines
    156-166, or [None] when the connection prompt is rejected. *)
Definition resolvedAccount (w : World) : option (option string * option Z) :=
  if promptsForConnection w then
    match connectAsync w with
    | Fulfilled r => Some (hd_error (accounts r), Some (connectedChainId r))
    | Rejected _ => None
    end
  else Some (address w, chainId w).

(** The identifier the batch-submission service answered with in the
    attempt, if it was called and accepted the batch. *)
Definition acceptedSubmission (w : World) (st : PayProviderState) : option string :=
  match find is_write_call (submit_calls w st) with
  | Some (CallWriteContractsAsync cs) =>
      match writeContractsAsync w cs with
      | Fulfilled id => Some id
      | Rejected _ => None
      end
  | _ => None
  end.

(** The place of a service in the order of lines 156-242. *)
Definition phase (c : Call) : nat :=
  match c with
  | CallWindowOpen _ _ _ => 0
  | CallConnectAsync _ => 1
  | CallFetchContracts _ => 2
  | CallSwitchChainAsync _ => 3
  | CallWriteContractsAsync _ => 4
  end.

Fixpoint ascending (l : list nat) : bool :=
  match l with
  | [] => true
  | x :: rest =>
      match rest with
      | [] => true
      | y :: _ => Nat.ltb x y && ascending rest
      end
  end.

(** [enabled: !!transactionId] (line 87): the calls-status query runs only
    once a submission identifier is stored. *)
Definition callsStatusEnabled (st : PayProviderState) : bool :=
  negb (String.eqb (transactionId st) "").

(** The message a status with code [c] and message [msg] is shown with:
    what [setErrorMessage] receives at the exit that sets that status. *)
Definition displayedMessage (c : PayErrorCode.t) (msg : option string) : option string :=
  match c with
  | PayErrorCode.UNEXPECTED_ERROR => Some GENERIC_ERROR_MESSAGE
  | PayErrorCode.USER_REJECTED_ERROR => Some USER_REJECTED_ERROR
  | PayErrorCode.INSUFFICIENT_BALANCE => msg
  end.

(** One of the three messages [setErrorMessage] is ever called with. *)
Definition isErrorText (s : string) : Prop :=
  s = GENERIC_ERROR_MESSAGE
  \/ s = USER_REJECTED_ERROR
  \/ exists p, s = PAY_INSUFFICIENT_BALANCE_ERROR_MESSAGE p.

(** The data of a [SUCCESS] status agree with the stored charge identifier. *)
Definition successDataConsistent (st : PayProviderState) : Prop :=
  statusName (lifecycleStatus st) = PAY_LIFECYCLESTATUS.SUCCESS ->
  (exists r, transactionReceipts (statusData (lifecycleStatus st)) = Some [r])
  /\ dataChargeId (statusData (lifecycleStatus st)) = Some (chargeId st)
  /\ receiptUrl (statusData (lifecycleStatus st)) = Some (receiptUrlOf (chargeId st)).
End Coverage.

(** The connection prompt answers with no account. *)
Definition noAccountWorld : @World sampleImports :=
  disconnectedWorld (Fulfilled {| accounts := []; connectedChainId := 8453 |}).

(** [useAccount] reports an address on chain 1 but the wallet is not a smart
    wallet; the prompt answers with two accounts on the target chain. *)
Definition promptedWorld : @World sampleImports :=
  @Build_World sampleImports
    (Some "0xA11CE") (Some 1%Z) true false
    (Fulfilled {| accounts := ["0xB0B"; "0xCA5"]; connectedChainId := 8453 |})
    (fun a => if String.eqb a "0xB0B" then Fulfilled sampleHydration
              else @Rejected sampleImports _ (@ErrorObject sampleImports networkDown))
    (fun _ => Fulfilled tt)
    (fun _ => @Fulfilled sampleImports string "tx-2").

(** The wallet is on chain 1 and the switch to the target chain goes
    through. *)
Definition otherChainWorld : @World sampleImports :=
  connectedWorld 1 (Fulfilled sampleHydration) (Fulfilled tt)
    (@Fulfilled sampleImports string "tx-1").

(** The user declines the batch submission. *)
Definition writeDeclinedWorld : @World sampleImports :=
  connectedWorld 8453 (Fulfilled sampleHydration) (Fulfilled tt)
    (@Rejected sampleImports _ (@ErrorObject sampleImports switchDeclined)).

(** The state after the user declined the connection prompt. *)
Definition deniedState : @PayProviderState sampleImports :=
  @submit_state sampleImports connectionDeniedWorld initialState.

(** The state after hydration reported an insufficient balance. *)
Definition unfundedState : @PayProviderState sampleImports :=
  @submit_state sampleImports insufficientWorld initialState.

(** ** Following one attempt *)

(** Case analysis on the innermost scrutinee first. *)
Ltac innermost x :=
  lazymatch x with
  | context [match ?y with _ => _ end] => innermost y
  | _ => destruct x eqn:?
  end.

Ltac unfold_run H :=
  unfold runSubmit, runTry, handleSubmit, tryCatch,
    handleSubmit_try, handleSubmit_catch, freshAttempt, submitHydrated,
    resolveConnection, callWriteContractsAsync,
    bind, ret, throw, getState, await, window_open, updateLifecycleStatus,
    setChargeId, setTransactionId, setErrorMessage, modifyState in H;
  cbn [state calls fst snd app] in H.

Ltac unfold_goal :=
  unfold runSubmit, runTry, handleSubmit, tryCatch,
    handleSubmit_try, handleSubmit_catch, freshAttempt, submitHydrated,
    resolveConnection, callWriteContractsAsync,
    bind, ret, throw, getState, await, window_open, updateLifecycleStatus,
    setChargeId, setTransactionId, setErrorMessage, modifyState;
  cbn [state calls fst snd app].

Ltac split_in H :=
  match type of H with
  | context [match ?x with _ => _ end] => innermost x
  end;
  cbn [state calls fst snd app] in H.

(** Name the outcome of [runSubmit w st] (or of the [try] block alone) and
    follow the code down to each of its exits. *)
Ltac run_attempt w st :=
  let r := fresh "r" in
  let Hr := fresh "Hr" in
  remember (runSubmit w st) as r eqn:Hr;
  unfold_run Hr;
  repeat split_in Hr;
  subst r.


Ltac observe :=
  unfold collaboratorThrew, hydrationReport, switchRejected in *;
  unfold submit_completion, submit_state, submit_calls, statusOf, codeOf in *.

Ltac same_report :=
  repeat match goal with
    | H : Some _ = Some _ |- _ => injection H as H; subst
    | H : Fulfilled _ = Fulfilled _ |- _ => injection H as H; subst
    end.

Ltac use_equations :=
  repeat match goal with
    | H : ?x = _ |- context [?x] => rewrite H
    | H : ?x = _, H' : context [?x] |- _ => rewrite H in H'
    end.

Ltac observe_more :=
  unfold acceptedSubmission, resolvedAccount, promptsForConnection, isFresh,
    callsStatusEnabled in *;
  observe.

Ltac in_cases H :=
  repeat (destruct H as [H|H]); try discriminate H; try contradiction.

(** Follow a second attempt in the same world: what is already known about
    the collaborators decides its branches. *)
Ltac known_in Hr :=
  match goal with
  | H : ?x = _ |- _ =>
      lazymatch H with
      | Hr => fail
      | _ => idtac
      end;
      match type of Hr with
      | context [match x with _ => _ end] => rewrite H in Hr
      end
  end;
  cbn [state calls fst snd app] in Hr.

Ltac run_again w st :=
  let r := fresh "r" in
  let Hr := fresh "Hr" in
  remember (runSubmit w st) as r eqn:Hr;
  unfold_run Hr;
  repeat first [known_in Hr | split_in Hr];
  subst r.

(** * Properties *)

(** ** Substring search *)




Section Properties.
Context {I : Imports}.

Lemma isInsufficientBalanceError_true (l : LifecycleStatus) :
  isInsufficientBalanceError l = true
  <-> statusName l = PAY_LIFECYCLESTATUS.ERROR
      /\ code (statusData l) = Some PayErrorCode.INSUFFICIENT_BALANCE.
Proof.
  unfold isInsufficientBalanceError.
  destruct (statusName l); simpl; try (split; [discriminate | intros [? ?]; discriminate]).
  destruct (code (statusData l)) as [[]|]; simpl; split; intros; intuition congruence.
Qed.


Lemma submit_on_success (w : World) (st : PayProviderState) :
  statusOf st = PAY_LIFECYCLESTATUS.SUCCESS ->
  runSubmit w st =
  (Returned tt,
   {| state := st;
      calls := [CallWindowOpen (receiptUrlOf (chargeId st)) "_blank" "noopener,noreferrer"] |}).
Proof.
  intros H. unfold statusOf in H. unfold_goal.
  rewrite H. reflexivity.
Qed.

Lemma submit_on_insufficient_balance (w : World) (st : PayProviderState) :
  statusOf st = PAY_LIFECYCLESTATUS.ERROR ->
  codeOf st = Some PayErrorCode.INSUFFICIENT_BALANCE ->
  runSubmit w st =
  (Returned tt,
   {| state := st;
      calls := [CallWindowOpen "https://keys.coinbase.com/fund" "_blank" "noopener,noreferrer"] |}).
Proof.
  intros H1 H2.
  assert (Hi : isInsufficientBalanceError (lifecycleStatus st) = true)
    by (apply isInsufficientBalanceError_true; split; assumption).
  unfold statusOf in H1. unfold_goal.
  rewrite H1, Hi. reflexivity.
Qed.


(** ** The charge identifier *)

(** C1 (as amended). In an attempt in which the hydration service returned
    a result: when the result carries no error, the charge identifier it
    reports is stored in [chargeId], however the rest of the attempt ends;
    when the result carries an error, the status becomes
    [ERROR]/[UNEXPECTED_ERROR] with the error's name and message and
    [chargeId] keeps the value it had before the attempt. *)
Theorem chargeId_stored_unless_hydration_error
    (w : World) (st : PayProviderState) (h : Hydration) :
  hydrationReport w st = Some h ->
  match hydrationError h with
  | None => chargeId (submit_state w st) = hydratedChargeId h
  | Some err =>
      chargeId (submit_state w st) = chargeId st
      /\ lifecycleStatus (submit_state w st) =
         errorStatus PayErrorCode.UNEXPECTED_ERROR (error_name err) (error_message err)
  end.
Proof.
  observe. run_attempt w st.
  all: cbn in *; intros; use_equations; try discriminate.
  all: repeat match goal with H : Some _ = Some _ |- _ => injection H as H; subst end.
  all: use_equations; auto.
Qed.

(** ** The balance check and the contracts check *)

Lemma balanceCheck_Some (h : Hydration) (p : Price) :
  balanceCheck h = Some p
  <-> insufficientBalance h = true /\ priceInUSDC h = Some p /\ price_truthy p = true.
Proof.
  unfold balanceCheck.
  destruct (insufficientBalance h); [|intuition discriminate].
  destruct (priceInUSDC h) as [q|]; [|intuition discriminate].
  destruct (price_truthy q) eqn:Hq.
  - split.
    + intros [= <-]. auto.
    + intros (_ & [= <-] & _). reflexivity.
  - split; [discriminate|]. intros (_ & [= <-] & Hp). congruence.
Qed.

Lemma balanceCheck_no_price (h : Hydration) :
  priceInUSDC h = None -> balanceCheck h = None.
Proof.
  intros H. unfold balanceCheck. rewrite H. destruct (insufficientBalance h); reflexivity.
Qed.

(** C2 (as amended). In an attempt in which the hydration service returned
    a result without error, with [insufficientBalance] set and a price that
    is present and truthy, and in which the chain switch, if it was called,
    did not reject: the status becomes [ERROR] with code
    [INSUFFICIENT_BALANCE] and the message built from the price, the same
    message is stored in [errorMessage], and the batch-submission service is
    not called.  And every [submit()] invoked while the status is [ERROR]
    with code [INSUFFICIENT_BALANCE] only opens the funding page: the state
    is unchanged and no service is called. *)
Theorem insufficient_balance_aborts
    (w : World) (st : PayProviderState) (h : Hydration) (p : Price) :
  hydrationReport w st = Some h ->
  hydrationError h = None ->
  insufficientBalance h = true ->
  priceInUSDC h = Some p ->
  price_truthy p = true ->
  switchRejected w st = false ->
  (lifecycleStatus (submit_state w st) =
     errorStatus PayErrorCode.INSUFFICIENT_BALANCE
       (Some PAY_INSUFFICIENT_BALANCE_ERROR)
       (Some (PAY_INSUFFICIENT_BALANCE_ERROR_MESSAGE p))
   /\ errorMessage (submit_state w st) = PAY_INSUFFICIENT_BALANCE_ERROR_MESSAGE p
   /\ existsb is_write_call (submit_calls w st) = false)
  /\ (forall (w' : World) (st' : PayProviderState),
        statusOf st' = PAY_LIFECYCLESTATUS.ERROR ->
        codeOf st' = Some PayErrorCode.INSUFFICIENT_BALANCE ->
        submit_completion w' st' = Returned tt
        /\ submit_state w' st' = st'
        /\ submit_calls w' st' =
           [CallWindowOpen "https://keys.coinbase.com/fund" "_blank" "noopener,noreferrer"]
        /\ existsb is_service_call (submit_calls w' st') = false).
Proof.
  intros Hrep Herr Hins Hprice Htruthy Hsw.
  assert (Hcheck : balanceCheck h = Some p)
    by (apply balanceCheck_Some; auto).
  split.
  - clear Hins Hprice Htruthy. revert Hrep Hsw. observe. run_attempt w st.
    all: cbn in *; intros; use_equations; try discriminate.
    all: same_report; use_equations; try discriminate.
    all: try congruence.
    all: same_report; auto.
  - intros w' st' H1 H2. observe.
    rewrite (submit_on_insufficient_balance w' st' H1 H2). cbn. auto.
Qed.

(** C4 (as amended). In an attempt in which the hydration service returned
    a result whose contracts list is absent or empty, the batch-submission
    service is not called; and when moreover the result carries no error,
    the balance check passes (the flag is unset, or the price is absent or
    falsy) and the chain switch, if it was called, did not reject, the
    status becomes [ERROR] with code [UNEXPECTED_ERROR] and the fixed
    message [NO_CONTRACTS_ERROR]. *)
Theorem empty_contracts_abort
    (w : World) (st : PayProviderState) (h : Hydration) :
  hydrationReport w st = Some h ->
  contracts h = None \/ contracts h = Some [] ->
  existsb is_write_call (submit_calls w st) = false
  /\ (hydrationError h = None ->
      balanceCheck h = None ->
      switchRejected w st = false ->
      lifecycleStatus (submit_state w st) =
        errorStatus PayErrorCode.UNEXPECTED_ERROR
          (Some NO_CONTRACTS_ERROR) (Some NO_CONTRACTS_ERROR)
      /\ errorMessage (submit_state w st) = GENERIC_ERROR_MESSAGE).
Proof.
  intros Hrep Hcs.
  revert Hrep. observe. run_attempt w st.
  all: cbn in *; intros; use_equations; try discriminate.
  all: same_report; use_equations; try discriminate.
  all: try (split; [reflexivity|intros; try congruence; auto]).
  all: try (destruct Hcs; congruence).
  all: cbn in *; discriminate.
Qed.

(** C10 (as amended). In an attempt in which the hydration service returned
    a result with [insufficientBalance] set but no price, the attempt does
    not end in [ERROR] with code [INSUFFICIENT_BALANCE]; and when moreover
    the result carries no error and the chain switch, if it was called, did
    not reject, the attempt goes on to the contracts check: with a
    non-empty contracts list the last call of the attempt submits exactly
    that list to the batch-submission service, with an absent or empty one
    the status becomes [ERROR]/[UNEXPECTED_ERROR] with the message
    [NO_CONTRACTS_ERROR]. *)
Theorem insufficient_balance_without_price_proceeds
    (w : World) (st : PayProviderState) (h : Hydration) :
  hydrationReport w st = Some h ->
  insufficientBalance h = true ->
  priceInUSDC h = None ->
  isInsufficientBalanceError (lifecycleStatus (submit_state w st)) = false
  /\ (hydrationError h = None ->
      switchRejected w st = false ->
      match contracts h with
      | None | Some [] =>
          lifecycleStatus (submit_state w st) =
            errorStatus PayErrorCode.UNEXPECTED_ERROR
              (Some NO_CONTRACTS_ERROR) (Some NO_CONTRACTS_ERROR)
      | Some cs =>
          exists before,
            submit_calls w st = (before ++ [CallWriteContractsAsync cs])%list
      end).
Proof.
  intros Hrep Hins Hprice.
  assert (Hcheck : balanceCheck h = None) by (apply balanceCheck_no_price; assumption).
  clear Hins Hprice.
  revert Hrep. observe. run_attempt w st.
  all: cbn in *; intros; use_equations; try discriminate.
  all: same_report; use_equations; try discriminate.
  all: split; [auto|intros; use_equations; try discriminate; try congruence].
  all: try (eexists [_]; reflexivity).
  all: try (eexists [_; _]; reflexivity).
  all: try (eexists [_; _; _]; reflexivity).
Qed.

(** ** Replaying a side effect *)

(** C3. When [submit()] is invoked while the status is [SUCCESS], it
    returns normally, the whole state (lifecycle status, [chargeId],
    [transactionId], [errorMessage]) is unchanged, and the only call made
    is [window.open] on the receipt URL of the stored charge: none of the
    connection, hydration, chain-switch and batch-submission services is
    called. *)
Theorem submit_on_success_only_opens_receipt
    (w : World) (st : PayProviderState) :
  statusOf st = PAY_LIFECYCLESTATUS.SUCCESS ->
  submit_completion w st = Returned tt
  /\ submit_state w st = st
  /\ submit_calls w st =
     [CallWindowOpen ("https://commerce.coinbase.com/pay/" ++ chargeId st ++ "/receipt")
        "_blank" "noopener,noreferrer"]
  /\ existsb is_service_call (submit_calls w st) = false.
Proof.
  intros H. observe. rewrite (submit_on_success w st H). cbn. auto.
Qed.

(** ** Exceptions *)










(** ** The asynchronous side transitions *)

Lemma onReceipt_Some (r : TransactionReceipt) (st : PayProviderState) :
  onReceipt (Some r) st =
  {| lifecycleStatus :=
       {| statusName := PAY_LIFECYCLESTATUS.SUCCESS;
          statusData :=
            {| code := None; error := None; message := None;
               transactionReceipts := Some [r];
               dataChargeId := Some (chargeId st);
               receiptUrl := Some (receiptUrlOf (chargeId st)) |} |};
     chargeId := chargeId st;
     transactionId := transactionId st;
     errorMessage := errorMessage st |}.
Proof. reflexivity. Qed.

Lemma onReceipt_None (st : PayProviderState) : onReceipt None st = st.
Proof. reflexivity. Qed.

Lemma onWriteStatus_pending (st : PayProviderState) :
  onWriteStatus "pending" st =
  {| lifecycleStatus :=
       {| statusName := PAY_LIFECYCLESTATUS.PENDING; statusData := emptyData |};
     chargeId := chargeId st;
     transactionId := transactionId st;
     errorMessage := errorMessage st |}.
Proof. reflexivity. Qed.

Lemma onWriteStatus_other (status : string) (st : PayProviderState) :
  status <> "pending" -> onWriteStatus status st = st.
Proof.
  intros H. unfold onWriteStatus, effect_state, pendingEffect.
  destruct (String.eqb_spec status "pending") as [->|_]; [contradiction|reflexivity].
Qed.

(** C6. Whenever a receipt [r] is obtained, whatever the current status,
    the status becomes [SUCCESS]; its data hold the receipt list [[r]],
    which is not empty and contains [r], the stored charge identifier, and
    the receipt URL [https://commerce.coinbase.com/pay/{chargeId}/receipt]
    built from the stored charge identifier.  The session fields are left
    as they were. *)
Theorem receipt_yields_success (r : TransactionReceipt) (st : PayProviderState) :
  let st' := onReceipt (Some r) st in
  statusOf st' = PAY_LIFECYCLESTATUS.SUCCESS
  /\ (exists receipts,
        transactionReceipts (statusData (lifecycleStatus st')) = Some receipts
        /\ receipts <> [] /\ In r receipts /\ receipts = [r])
  /\ dataChargeId (statusData (lifecycleStatus st')) = Some (chargeId st)
  /\ receiptUrl (statusData (lifecycleStatus st')) =
     Some ("https://commerce.coinbase.com/pay/" ++ chargeId st ++ "/receipt")
  /\ chargeId st' = chargeId st
  /\ transactionId st' = transactionId st
  /\ errorMessage st' = errorMessage st.
Proof.
  cbv zeta. rewrite onReceipt_Some. unfold statusOf. cbn.
  repeat split; auto.
  exists [r]. repeat split; [discriminate | left; reflexivity].
Qed.

(** C8 (as amended). The pending echo is idempotent but not guarded: a
    "pending" notification sets the status to [PENDING] whatever the
    current status is, also when the lifecycle is already past that point;
    a second "pending" notification leaves the status where the first one
    put it, and any number of "pending" notifications received while the
    status is [PENDING] leave it [PENDING]. *)
Theorem pending_echo_unguarded_idempotent (st : PayProviderState) :
  statusOf (onWriteStatus "pending" st) = PAY_LIFECYCLESTATUS.PENDING
  /\ statusOf (onWriteStatus "pending" (onWriteStatus "pending" st))
     = statusOf (onWriteStatus "pending" st)
  /\ (forall n, statusOf st = PAY_LIFECYCLESTATUS.PENDING ->
                statusOf (notified "pending" n st) = PAY_LIFECYCLESTATUS.PENDING).
Proof.
  split; [reflexivity|]. split; [reflexivity|].
  intros n H. induction n as [|n IH]; [exact H|].
  cbn [notified]. destruct (notified "pending" n st); reflexivity.
Qed.

(** C9 (as amended). Once the status is [SUCCESS] or [ERROR]: the
    receipt-driven transition never takes it back to an earlier status (an
    absent receipt changes nothing, a receipt gives [SUCCESS], also from
    [ERROR]); a submission-status notification other than "pending"
    changes nothing; a [submit()] in [SUCCESS], or in [ERROR] with code
    [INSUFFICIENT_BALANCE], changes nothing.  The pending echo, however, is
    not guarded: a "pending" notification takes the status back to
    [PENDING]. *)
Theorem terminal_status_side_transitions (st : PayProviderState) :
  terminal (statusOf st) = true ->
  (forall receipt,
      PAY_LIFECYCLESTATUS.rank (statusOf st)
      <= PAY_LIFECYCLESTATUS.rank (statusOf (onReceipt receipt st)))
  /\ onReceipt None st = st
  /\ (forall r, statusOf (onReceipt (Some r) st) = PAY_LIFECYCLESTATUS.SUCCESS)
  /\ (forall status, status <> "pending" -> onWriteStatus status st = st)
  /\ (forall w, statusOf st = PAY_LIFECYCLESTATUS.SUCCESS
                \/ isInsufficientBalanceError (lifecycleStatus st) = true ->
                submit_state w st = st)
  /\ statusOf (onWriteStatus "pending" st) = PAY_LIFECYCLESTATUS.PENDING.
Proof.
  intros Hterm. repeat split.
  - intros [r|].
    + rewrite onReceipt_Some. unfold statusOf in *. cbn.
      destruct (statusName (lifecycleStatus st)); cbn; auto.
    + rewrite onReceipt_None. auto.
  - intros status H. apply onWriteStatus_other. exact H.
  - intros w [H|H]; unfold submit_state.
    + rewrite (submit_on_success w st H). reflexivity.
    + apply isInsufficientBalanceError_true in H. destruct H as [H1 H2].
      rewrite (submit_on_insufficient_balance w st H1 H2). reflexivity.
Qed.

(** Nothing after the hydration step looks at the lifecycle status: an
    attempt that resumes there submits its contracts whatever the status has
    become, [SUCCESS] and [ERROR] included, which is how a "pending"
    notification can reach a controller that is past [PENDING]. *)
Lemma resumed_attempt_submits (w : World) (h : Hydration) (c : Contract)
    (cs : list Contract) (st : PayProviderState) :
  balanceCheck h = None ->
  contracts h = Some (c :: cs) ->
  calls (snd (resumeHydrated w (Some base_id) h {| state := st; calls := [] |}))
  = [CallWriteContractsAsync (c :: cs)].
Proof.
  intros Hb Hc. unfold resumeHydrated. unfold_goal. cbn.
  rewrite Z.eqb_refl. cbn. rewrite Hb, Hc. cbn.
  destruct (writeContractsAsync w (c :: cs)) as [id|[|e]]; try reflexivity.
  cbn. destruct (JSON_stringify e); reflexivity.
Qed.

(** ** The happy path *)

(** With a connected smart wallet on the target chain, a hydration result
    with contracts and no balance problem, and a batch submission that
    succeeds, the controller goes from [INIT] through [PENDING] to
    [SUCCESS]. *)
Lemma happy_path (w : World) (a : string) (h : Hydration) (c : Contract)
    (cs : list Contract) (id : string) (r : TransactionReceipt) :
  isConnected w = true -> isSmartWallet w = true ->
  address w = Some a -> a <> "" -> chainId w = Some base_id ->
  fetchContracts w a = Fulfilled h ->
  hydrationError h = None -> balanceCheck h = None ->
  contracts h = Some (c :: cs) ->
  writeContractsAsync w (c :: cs) = Fulfilled id ->
  let s1 := step initialState (EvSubmit w) in
  let s2 := step s1 (EvWriteStatus "pending") in
  let s3 := step s2 (EvReceipt (Some r)) in
  statusOf s1 = PAY_LIFECYCLESTATUS.INIT
  /\ transactionId s1 = id
  /\ statusOf s2 = PAY_LIFECYCLESTATUS.PENDING
  /\ statusOf s3 = PAY_LIFECYCLESTATUS.SUCCESS
  /\ receiptUrl (statusData (lifecycleStatus s3)) = Some (receiptUrlOf (hydratedChargeId h)).
Proof.
  intros Hc Hs Ha Hne Hch Hf He Hb Hcs Hw.
  assert (Hsub : submit_state w initialState =
                 {| lifecycleStatus := lifecycleStatus initialState;
                    chargeId := hydratedChargeId h;
                    transactionId := id;
                    errorMessage := "" |}).
  { unfold submit_state. unfold_goal. cbn.
    rewrite Hc, Hs. cbn. rewrite Ha. destruct a as [|x a]; [congruence|].
    cbn. rewrite Hf. cbn. rewrite He, Hch. unfold differsFromBase.
    rewrite Z.eqb_refl. cbn. rewrite Hb, Hcs. cbn. rewrite Hw. reflexivity. }
  cbv zeta. cbn [step]. rewrite Hsub.
  rewrite onWriteStatus_pending, onReceipt_Some. cbn. auto.
Qed.
End Properties.

(** * Concrete runs *)

(** Run for C1 (as amended): hydration reports [charge-1] and no error, and
    [charge-1] is stored. *)
Lemma chargeId_stored_run :
  @hydrationReport sampleImports okWorld initialState = Some sampleHydration
  /\ chargeId (@submit_state sampleImports okWorld initialState) = "charge-1".
Proof.
  split; [reflexivity|].
  exact (@chargeId_stored_unless_hydration_error sampleImports okWorld initialState
           sampleHydration eq_refl).
Defined.

(** C1 as stated fails: hydration returns a result that carries an error and
    the charge identifier [charge-9]; the status becomes
    [ERROR]/[UNEXPECTED_ERROR], and [chargeId] is still empty. *)
Lemma chargeId_not_stored_on_hydration_error :
  @hydrationReport sampleImports hydrationErrorWorld initialState = Some failedHydration
  /\ hydratedChargeId failedHydration = "charge-9"
  /\ statusOf (@submit_state sampleImports hydrationErrorWorld initialState)
     = PAY_LIFECYCLESTATUS.ERROR
  /\ codeOf (@submit_state sampleImports hydrationErrorWorld initialState)
     = Some PayErrorCode.UNEXPECTED_ERROR
  /\ chargeId (@submit_state sampleImports hydrationErrorWorld initialState) = ""
  /\ chargeId (@submit_state sampleImports hydrationErrorWorld initialState)
     <> hydratedChargeId failedHydration.
Proof.
  repeat split; try reflexivity. vm_compute. discriminate.
Qed.

(** Run for C2 (as amended): an insufficient balance with price [10.00] on
    the target chain. *)
Lemma insufficient_balance_run :
  lifecycleStatus (@submit_state sampleImports insufficientWorld initialState) =
    @errorStatus sampleImports PayErrorCode.INSUFFICIENT_BALANCE
      (Some "User has insufficient balance")
      (Some "You need at least 10.00 USDC to continue with payment")
  /\ @submit_calls sampleImports insufficientWorld initialState
     = [CallFetchContracts "0xA11CE"]
  /\ @submit_calls sampleImports okWorld
       (@submit_state sampleImports insufficientWorld initialState)
     = [CallWindowOpen "https://keys.coinbase.com/fund" "_blank" "noopener,noreferrer"].
Proof.
  pose proof (@insufficient_balance_aborts sampleImports insufficientWorld initialState
                (hydrationOf (Some ["approve"; "transferTokenPreApproved"]) true (Some "10.00"))
                "10.00" eq_refl eq_refl eq_refl eq_refl eq_refl eq_refl) as [[H1 _] H2].
  split; [exact H1|]. split; [reflexivity|].
  apply (H2 okWorld (@submit_state sampleImports insufficientWorld initialState)); reflexivity.
Defined.

(** C2 as stated fails: hydration reports an insufficient balance and the
    price [10.00], but the wallet is on another chain and the user declines
    the chain switch, so the attempt ends in [ERROR]/[USER_REJECTED_ERROR]. *)
Lemma insufficient_balance_masked_by_switch_rejection :
  @hydrationReport sampleImports insufficientThenSwitchDeclinedWorld initialState
    = Some (hydrationOf (Some ["approve"; "transferTokenPreApproved"]) true (Some "10.00"))
  /\ statusOf (@submit_state sampleImports insufficientThenSwitchDeclinedWorld initialState)
     = PAY_LIFECYCLESTATUS.ERROR
  /\ codeOf (@submit_state sampleImports insufficientThenSwitchDeclinedWorld initialState)
     = Some PayErrorCode.USER_REJECTED_ERROR
  /\ codeOf (@submit_state sampleImports insufficientThenSwitchDeclinedWorld initialState)
     <> Some PayErrorCode.INSUFFICIENT_BALANCE
  /\ @submit_calls sampleImports insufficientThenSwitchDeclinedWorld initialState
     = [CallFetchContracts "0xA11CE"; CallSwitchChainAsync 8453].
Proof.
  repeat split; try reflexivity. vm_compute. discriminate.
Qed.

(** Run for C3: a submit in the paid state. *)
Lemma submit_on_success_run :
  @submit_state sampleImports okWorld paidState = paidState
  /\ @submit_calls sampleImports okWorld paidState
     = [CallWindowOpen "https://commerce.coinbase.com/pay/charge-1/receipt"
          "_blank" "noopener,noreferrer"].
Proof.
  pose proof (@submit_on_success_only_opens_receipt sampleImports okWorld paidState eq_refl)
    as (_ & H1 & H2 & _).
  split; [exact H1 | exact H2].
Defined.

(** Run for C4 (as amended): an empty contracts list and nothing else. *)
Lemma empty_contracts_run :
  lifecycleStatus (@submit_state sampleImports emptyContractsWorld initialState) =
    @errorStatus sampleImports PayErrorCode.UNEXPECTED_ERROR
      (Some "Contracts are not available") (Some "Contracts are not available")
  /\ existsb is_write_call (@submit_calls sampleImports emptyContractsWorld initialState)
     = false.
Proof.
  pose proof (@empty_contracts_abort sampleImports emptyContractsWorld initialState
                (hydrationOf (Some []) false (Some "10.00")) eq_refl
                (or_intror eq_refl)) as [H1 H2].
  split; [|exact H1].
  exact (proj1 (H2 eq_refl eq_refl eq_refl)).
Defined.

(** C4 as stated fails: with an empty contracts list, an insufficient
    balance and a price, the attempt ends in [ERROR]/[INSUFFICIENT_BALANCE];
    with an absent contracts list and an error in the hydration result, the
    message is the error's, not [NO_CONTRACTS_ERROR]. *)
Lemma empty_contracts_masked_by_earlier_checks :
  (@hydrationReport sampleImports emptyContractsInsufficientWorld initialState
     = Some (hydrationOf (Some []) true (Some "10.00"))
   /\ codeOf (@submit_state sampleImports emptyContractsInsufficientWorld initialState)
      = Some PayErrorCode.INSUFFICIENT_BALANCE
   /\ codeOf (@submit_state sampleImports emptyContractsInsufficientWorld initialState)
      <> Some PayErrorCode.UNEXPECTED_ERROR)
  /\ (@hydrationReport sampleImports hydrationErrorWorld initialState = Some failedHydration
      /\ contracts failedHydration = None
      /\ message (statusData (lifecycleStatus
            (@submit_state sampleImports hydrationErrorWorld initialState)))
         = Some "fetch failed"
      /\ message (statusData (lifecycleStatus
            (@submit_state sampleImports hydrationErrorWorld initialState)))
         <> Some (@NO_CONTRACTS_ERROR sampleImports)).
Proof.
  repeat split; try reflexivity; vm_compute; discriminate.
Qed.





(** Run for C8 (as amended): three "pending" notifications after the first
    one leave the status [PENDING]. *)
Lemma pending_echo_run :
  statusOf (@notified sampleImports "pending" 3
              (@onWriteStatus sampleImports "pending" initialState))
  = PAY_LIFECYCLESTATUS.PENDING.
Proof.
  pose proof (@pending_echo_unguarded_idempotent sampleImports
                (@onWriteStatus sampleImports "pending" initialState))
    as (_ & _ & H).
  exact (H 3 eq_refl).
Defined.

(** C8 as stated fails, in two lifecycles that are past [PENDING].  A
    payment was submitted, reported pending and confirmed by its receipt:
    the status is [SUCCESS], and one more "pending" notification sets it to
    [PENDING].  And a payment was submitted and reported pending, then a
    second submission is declined: the status is [ERROR]; the retry is
    accepted, and its "pending" notification sets the status to
    [PENDING]. *)
Lemma pending_echo_not_guarded :
  (statusOf (@run sampleImports initialState
               [EvSubmit okWorld; EvWriteStatus "pending";
                @EvReceipt sampleImports (Some "receipt-1")])
     = PAY_LIFECYCLESTATUS.SUCCESS
   /\ statusOf (@run sampleImports initialState
                  [EvSubmit okWorld; EvWriteStatus "pending";
                   @EvReceipt sampleImports (Some "receipt-1");
                   EvWriteStatus "pending"])
      = PAY_LIFECYCLESTATUS.PENDING)
  /\ (statusOf (@run sampleImports initialState
                  [EvSubmit okWorld; EvWriteStatus "pending"])
        = PAY_LIFECYCLESTATUS.PENDING
      /\ statusOf (@run sampleImports initialState
                     [EvSubmit okWorld; EvWriteStatus "pending";
                      EvSubmit writeDeclinedWorld])
         = PAY_LIFECYCLESTATUS.ERROR
      /\ statusOf (@run sampleImports initialState
                     [EvSubmit okWorld; EvWriteStatus "pending";
                      EvSubmit writeDeclinedWorld;
                      EvSubmit okWorld; EvWriteStatus "pending"])
         = PAY_LIFECYCLESTATUS.PENDING).
Proof.
  repeat split; reflexivity.
Qed.

(** Run for C9 (as amended): in the paid state a receipt keeps [SUCCESS]
    and a "success" notification changes nothing. *)
Lemma terminal_status_run :
  statusOf (@onReceipt sampleImports (Some "receipt-2") paidState)
    = PAY_LIFECYCLESTATUS.SUCCESS
  /\ @onWriteStatus sampleImports "success" paidState = paidState.
Proof.
  pose proof (@terminal_status_side_transitions sampleImports paidState eq_refl)
    as (_ & _ & H1 & H2 & _).
  split; [exact (H1 "receipt-2")|].
  apply H2. discriminate.
Defined.

(** C9 as stated fails, twice.  After a full happy path the status is
    [SUCCESS], and one more "pending" notification takes it back to
    [PENDING].  And after a first attempt was submitted, a second attempt
    fails in hydration, the status is [ERROR], and the receipt of the first
    attempt then moves it to [SUCCESS] with no [submit()] in between. *)
Lemma terminal_status_left_without_submit :
  (let st := @run sampleImports initialState
               [EvSubmit okWorld; EvWriteStatus "pending";
                @EvReceipt sampleImports (Some "receipt-1")] in
   statusOf st = PAY_LIFECYCLESTATUS.SUCCESS
   /\ statusOf (step st (EvWriteStatus "pending")) = PAY_LIFECYCLESTATUS.PENDING
   /\ PAY_LIFECYCLESTATUS.rank (statusOf (step st (EvWriteStatus "pending")))
      < PAY_LIFECYCLESTATUS.rank (statusOf st))
  /\ (let st := @run sampleImports initialState
                  [EvSubmit okWorld; EvWriteStatus "pending";
                   EvSubmit hydrationErrorWorld] in
      statusOf st = PAY_LIFECYCLESTATUS.ERROR
      /\ statusOf (step st (@EvReceipt sampleImports (Some "receipt-1")))
         = PAY_LIFECYCLESTATUS.SUCCESS).
Proof.
  cbv zeta. repeat split; try reflexivity. vm_compute. lia.
Qed.

(** Run for C10 (as amended): an insufficient balance without price, on the
    target chain; the contracts are submitted. *)
Lemma insufficient_balance_without_price_run :
  isInsufficientBalanceError
    (lifecycleStatus (@submit_state sampleImports insufficientNoPriceWorld initialState))
    = false
  /\ exists before,
       @submit_calls sampleImports insufficientNoPriceWorld initialState
       = (before ++ [@CallWriteContractsAsync sampleImports
                       ["approve"; "transferTokenPreApproved"]])%list.
Proof.
  pose proof (@insufficient_balance_without_price_proceeds sampleImports
                insufficientNoPriceWorld initialState
                (hydrationOf (Some ["approve"; "transferTokenPreApproved"]) true None)
                eq_refl eq_refl eq_refl) as [H1 H2].
  split; [exact H1|].
  exact (H2 eq_refl eq_refl).
Defined.

(** C10 as stated fails: hydration reports an insufficient balance, no
    price and a non-empty contracts list, but the wallet is on another chain
    and the user declines the chain switch; the attempt ends in [ERROR]
    before the balance check and nothing is submitted. *)
Lemma insufficient_balance_without_price_not_submitted :
  @hydrationReport sampleImports insufficientNoPriceSwitchDeclinedWorld initialState
    = Some (hydrationOf (Some ["approve"; "transferTokenPreApproved"]) true None)
  /\ @submit_calls sampleImports insufficientNoPriceSwitchDeclinedWorld initialState
     = [CallFetchContracts "0xA11CE"; CallSwitchChainAsync 8453]
  /\ existsb is_write_call
       (@submit_calls sampleImports insufficientNoPriceSwitchDeclinedWorld initialState)
     = false
  /\ statusOf (@submit_state sampleImports insufficientNoPriceSwitchDeclinedWorld initialState)
     = PAY_LIFECYCLESTATUS.ERROR.
Proof.
  repeat split; reflexivity.
Qed.

(** * Further properties of [handleSubmit] and of the effects *)

Section MoreProperties.
Context {I : Imports}.

(** ** One attempt *)

(** [handleSubmit] leaves the status alone or sets [ERROR], and leaves
    [errorMessage] alone or sets one of the three error texts. *)
Lemma submit_changes (w : World) (st : PayProviderState) :
  (lifecycleStatus (submit_state w st) = lifecycleStatus st
   \/ statusOf (submit_state w st) = PAY_LIFECYCLESTATUS.ERROR)
  /\ (errorMessage (submit_state w st) = errorMessage st
      \/ isErrorText (errorMessage (submit_state w st))).
Proof.
  unfold isErrorText. observe_more. run_attempt w st.
  all: cbn in *; split; auto; right; eauto.
Qed.

Lemma submit_transactionId (w : World) (st : PayProviderState) :
  transactionId (submit_state w st) =
  match acceptedSubmission w st with
  | Some id => id
  | None => transactionId st
  end.
Proof.
  observe_more. run_attempt w st.
  all: cbn in *; use_equations; reflexivity.
Qed.

Lemma not_fresh_submit (w : World) (st : PayProviderState) :
  isFresh st = false ->
  submit_state w st = st
  /\ existsb is_service_call (submit_calls w st) = false.
Proof.
  intros Hf. unfold isFresh in Hf. unfold submit_state, submit_calls.
  destruct (PAY_LIFECYCLESTATUS.eqb (statusName (lifecycleStatus st))
              PAY_LIFECYCLESTATUS.SUCCESS) eqn:Hs.
  - assert (Hs' : statusOf st = PAY_LIFECYCLESTATUS.SUCCESS)
      by (unfold statusOf; destruct (statusName (lifecycleStatus st));
          cbn in Hs; congruence).
    rewrite (submit_on_success w st Hs'). auto.
  - cbn in Hf. apply negb_false_iff in Hf.
    apply isInsufficientBalanceError_true in Hf. destruct Hf as [H1 H2].
    rewrite (submit_on_insufficient_balance w st H1 H2). auto.
Qed.

(** X1. The calls of one [submit()] follow a fixed discipline.  When the
    guards stop the attempt (status [SUCCESS], or [ERROR] with code
    [INSUFFICIENT_BALANCE]) the only call is one [window.open], on the
    receipt URL or on the funding page.  Otherwise [window.open] is never
    called, and the services are called in the order connection, hydration,
    chain switch, batch submission, each at most once. *)
Theorem attempt_calls_in_order (w : World) (st : PayProviderState) :
  (isFresh st = false ->
   exists url,
     submit_calls w st = [CallWindowOpen url "_blank" "noopener,noreferrer"]
     /\ (url = receiptUrlOf (chargeId st) \/ url = "https://keys.coinbase.com/fund"))
  /\ (isFresh st = true ->
      forallb is_service_call (submit_calls w st) = true
      /\ ascending (map phase (submit_calls w st)) = true).
Proof.
  observe_more. run_attempt w st.
  all: cbn in *; split; intros; try discriminate; try (split; reflexivity).
  all: try (eexists; split; [reflexivity|auto]).
Qed.

(** X2. An attempt stops at the first collaborator that rejects: a call
    that meets a rejection is the last call of the attempt, and its
    rejection is the exception the attempt handles. *)
Theorem attempt_stops_at_rejection (w : World) (st : PayProviderState)
    (before after : list Call) (c : Call) (e : Exception) :
  submit_calls w st = (before ++ c :: after)%list ->
  rejectionOf w c = Some e ->
  after = [] /\ collaboratorThrew w st = Some e.
Proof.
  observe_more. run_attempt w st.
  all: cbn in *; intros Hc Hr.
  all: repeat (destruct before as [|? before]; cbn in Hc; try discriminate;
               injection Hc as ? Hc; subst).
  all: cbn in *; use_equations; try discriminate; same_report; auto.
Qed.

(** X3. In a fresh attempt the wallet connection is prompted exactly when
    [useAccount] reports no connection or the wallet is not a Coinbase smart
    wallet; the prompt is then the first call and asks for a smart wallet
    only.  A connected smart wallet is never prompted. *)
Theorem connection_prompt (w : World) (st : PayProviderState) :
  isFresh st = true ->
  (promptsForConnection w = true ->
   hd_error (submit_calls w st) = Some (CallConnectAsync "smartWalletOnly"))
  /\ (promptsForConnection w = false ->
      forall p, ~ In (CallConnectAsync p) (submit_calls w st)).
Proof.
  observe_more. run_attempt w st.
  all: cbn in *; intros; split; intros; try discriminate; try congruence; auto.
  all: intuition discriminate.
Qed.

(** X4. In a fresh attempt the hydration service is called with address
    [a] if and only if [a] is the resolved address and is not empty: the
    first account returned by the prompt when there was a prompt (whatever
    [useAccount] reported), the address of [useAccount] otherwise.  It is
    never called when the prompt is rejected or no address resolves. *)
Theorem hydration_address (w : World) (st : PayProviderState) (a : string) :
  isFresh st = true ->
  In (CallFetchContracts a) (submit_calls w st)
  <-> (a <> "" /\ exists chain, resolvedAccount w = Some (Some a, chain)).
Proof.
  observe_more. run_attempt w st.
  all: cbn in *; intros; try discriminate.
  all: use_equations.
  all: split; [intros Hin | intros (Hne & chain & Hres)].
  all: try (in_cases Hin; injection Hin as <-;
            (split; [discriminate | eexists; reflexivity])).
  all: try congruence.
  all: try (injection Hres as ? ?; subst; try congruence; auto 10).
Qed.

(** X5. When a fresh attempt resolves no address (absent, or the empty
    string), it ends in [ERROR]/[UNEXPECTED_ERROR] with
    [NO_CONNECTED_ADDRESS_ERROR] as error and message and the generic text
    in [errorMessage]; [chargeId] and [transactionId] are untouched, and
    apart from the prompt, if there was one, no service is called. *)
Theorem no_address_exit (w : World) (st : PayProviderState)
    (addr : option string) (chain : option Z) :
  isFresh st = true ->
  resolvedAccount w = Some (addr, chain) ->
  addr = None \/ addr = Some "" ->
  lifecycleStatus (submit_state w st) =
    errorStatus PayErrorCode.UNEXPECTED_ERROR
      (Some NO_CONNECTED_ADDRESS_ERROR) (Some NO_CONNECTED_ADDRESS_ERROR)
  /\ errorMessage (submit_state w st) = GENERIC_ERROR_MESSAGE
  /\ chargeId (submit_state w st) = chargeId st
  /\ transactionId (submit_state w st) = transactionId st
  /\ submit_calls w st =
     (if promptsForConnection w then [CallConnectAsync "smartWalletOnly"] else []).
Proof.
  intros Hf Hres Haddr. revert Hf Hres. observe_more. run_attempt w st.
  all: cbn in *; intros; try discriminate; use_equations; try discriminate.
  all: same_report; try (destruct Haddr; congruence).
  all: auto.
Qed.

(** X6. The chain-switch service is called if and only if the hydration
    service returned a result without error and the resolved chain (the one
    the prompt reported when there was a prompt, the one of [useAccount]
    otherwise, possibly absent) is not [base.id]; its target is always
    [base.id]. *)
Theorem chain_switch_iff (w : World) (st : PayProviderState) (z : Z) :
  In (CallSwitchChainAsync z) (submit_calls w st)
  <-> (z = base_id
       /\ exists h addr chain,
            hydrationReport w st = Some h
            /\ hydrationError h = None
            /\ resolvedAccount w = Some (addr, chain)
            /\ differsFromBase chain = true).
Proof.
  observe_more. run_attempt w st.
  all: cbn in *; use_equations.
  all: split; [intros Hin | intros (Hz & h & addr & chain & Hrep & Herr & Hres & Hd)].
  all: try (in_cases Hin; injection Hin as <-;
            (split; [reflexivity | do 3 eexists; repeat split; eauto])).
  all: try discriminate.
  all: same_report; try congruence.
  all: subst; auto 10.
  all: cbn in Hd; congruence.
Qed.

(** X7. Contracts are handed to the batch-submission service only after
    every check has passed: the attempt is fresh, hydration returned a
    result without error, the chain switch, if any, went through, the
    balance check did not fail, and the list submitted is exactly the
    hydrated contracts list, which is not empty. *)
Theorem submission_preconditions (w : World) (st : PayProviderState)
    (cs : list Contract) :
  In (CallWriteContractsAsync cs) (submit_calls w st) ->
  isFresh st = true
  /\ cs <> []
  /\ switchRejected w st = false
  /\ exists h,
       hydrationReport w st = Some h
       /\ hydrationError h = None
       /\ balanceCheck h = None
       /\ contracts h = Some cs.
Proof.
  observe_more. run_attempt w st.
  all: cbn in *; use_equations; intros Hin.
  all: in_cases Hin; injection Hin as <-.
  all: repeat split; try discriminate; try reflexivity.
  all: eexists; repeat split; eauto.
Qed.

(** X8. [transactionId] changes only through an accepted batch submission:
    after an attempt it is the identifier the service answered with, and
    otherwise what it was before.  An accepted submission leaves the
    lifecycle status and [errorMessage] as they were, and no collaborator
    threw in that attempt. *)
Theorem transactionId_frame (w : World) (st : PayProviderState) :
  transactionId (submit_state w st) =
    match acceptedSubmission w st with
    | Some id => id
    | None => transactionId st
    end
  /\ (forall id, acceptedSubmission w st = Some id ->
                 lifecycleStatus (submit_state w st) = lifecycleStatus st
                 /\ errorMessage (submit_state w st) = errorMessage st
                 /\ collaboratorThrew w st = None).
Proof.
  observe_more. run_attempt w st.
  all: cbn in *; use_equations; split; try reflexivity; intros; try discriminate; auto.
Qed.

(** X9. When the hydration service is not called in an attempt, or rejects,
    [chargeId] keeps its value. *)
Theorem chargeId_frame (w : World) (st : PayProviderState) :
  hydrationReport w st = None ->
  chargeId (submit_state w st) = chargeId st.
Proof.
  observe_more. run_attempt w st.
  all: cbn in *; use_equations; intros; try discriminate; auto.
Qed.

(** X10. The writes of [handleSubmit] never set a status other than
    [ERROR], and there are three ways for it to end.  It leaves the status
    and [errorMessage] as they were.  Or it sets an [ERROR] status and, with
    it, [errorMessage]: to [GENERIC_ERROR_MESSAGE] for the code
    [UNEXPECTED_ERROR] whatever message the status carries, to
    [USER_REJECTED_ERROR] for the code [USER_REJECTED_ERROR], and to the
    message of the status for [INSUFFICIENT_BALANCE].  Or the [catch] block
    throws on [JSON.stringify] (line 259): [errorMessage] is already set to
    the text for the exception (line 254), the status is left as it was and
    [submit()] rejects. *)
Theorem status_exit (w : World) (st : PayProviderState) :
  (lifecycleStatus (submit_state w st) = lifecycleStatus st
   /\ errorMessage (submit_state w st) = errorMessage st)
  \/ (exists c err msg,
        lifecycleStatus (submit_state w st) = errorStatus c err msg
        /\ Some (errorMessage (submit_state w st)) = displayedMessage c msg)
  \/ (exists e,
        collaboratorThrew w st = Some (ErrorObject e)
        /\ JSON_stringify e = None
        /\ submit_completion w st = Thrown (ErrorObject TypeError)
        /\ lifecycleStatus (submit_state w st) = lifecycleStatus st
        /\ errorMessage (submit_state w st) =
           (if isUserRejectedError e then USER_REJECTED_ERROR
            else GENERIC_ERROR_MESSAGE)).
Proof.
  observe_more. run_attempt w st.
  all: cbn in *; use_equations; try (left; split; reflexivity).
  all: try (right; left; do 3 eexists; split; reflexivity).
  all: right; right; eexists; repeat split; eauto.
  all: use_equations; reflexivity.
Qed.

(** X11. A fresh attempt does not depend on the state it starts from: in
    the same world, two fresh attempts make the same calls, and each of the
    lifecycle status, [chargeId], [transactionId] and [errorMessage] is
    either set to the same value by both or left alone by both.  A retry
    after an error behaves like a first attempt. *)
Theorem fresh_attempts_agree (w : World) (st1 st2 : PayProviderState) :
  isFresh st1 = true ->
  isFresh st2 = true ->
  submit_calls w st1 = submit_calls w st2
  /\ (lifecycleStatus (submit_state w st1) = lifecycleStatus (submit_state w st2)
      \/ (lifecycleStatus (submit_state w st1) = lifecycleStatus st1
          /\ lifecycleStatus (submit_state w st2) = lifecycleStatus st2))
  /\ (chargeId (submit_state w st1) = chargeId (submit_state w st2)
      \/ (chargeId (submit_state w st1) = chargeId st1
          /\ chargeId (submit_state w st2) = chargeId st2))
  /\ (transactionId (submit_state w st1) = transactionId (submit_state w st2)
      \/ (transactionId (submit_state w st1) = transactionId st1
          /\ transactionId (submit_state w st2) = transactionId st2))
  /\ (errorMessage (submit_state w st1) = errorMessage (submit_state w st2)
      \/ (errorMessage (submit_state w st1) = errorMessage st1
          /\ errorMessage (submit_state w st2) = errorMessage st2)).
Proof.
  observe_more. run_attempt w st1.
  all: cbn in *; intros H1; try discriminate H1.
  all: run_again w st2.
  all: cbn in *; intros H2; try discriminate H2.
  all: try congruence.
  all: auto 10.
Qed.

(** ** Sequences of events *)

Lemma run_cons (st : PayProviderState) (ev : Event) (evs : list Event) :
  run st (ev :: evs) = run (step st ev) evs.
Proof. reflexivity. Qed.

Lemma side_event_cases (st : PayProviderState) (status : string) :
  (status = "pending" /\ onWriteStatus status st = onWriteStatus "pending" st)
  \/ (status <> "pending" /\ onWriteStatus status st = st).
Proof.
  destruct (String.eqb_spec status "pending") as [->|Hne].
  - left. auto.
  - right. split; [exact Hne|]. apply onWriteStatus_other. exact Hne.
Qed.

(** X12. [SUCCESS] and [ERROR] with code [INSUFFICIENT_BALANCE] absorb
    [submit()]: whatever the collaborators would answer, any number of
    submits in a row leaves the whole state as it is and calls no service.
    From the funding dead end only a side transition leads out. *)
Theorem absorbed_submits (st : PayProviderState) (ws : list World) :
  isFresh st = false ->
  run st (map EvSubmit ws) = st
  /\ forall w, In w ws -> existsb is_service_call (submit_calls w st) = false.
Proof.
  intros Hf. split.
  - induction ws as [|w ws IH]; [reflexivity|].
    cbn [map]. rewrite run_cons. cbn [step].
    rewrite (proj1 (not_fresh_submit w st Hf)). exact IH.
  - intros w _. apply (not_fresh_submit w st Hf).
Qed.


(** X14. [errorMessage] is never cleared.  Along any sequence of events it
    keeps its value or takes one of the three error texts; the pending echo
    and the receipt transition never touch it, so an error text set by a
    failed attempt is still there after a later payment succeeded. *)
Theorem errorMessage_never_cleared (st : PayProviderState) (evs : list Event) :
  (errorMessage (run st evs) = errorMessage st
   \/ isErrorText (errorMessage (run st evs)))
  /\ ((forall w, ~ In (EvSubmit w) evs) -> errorMessage (run st evs) = errorMessage st).
Proof.
  revert st. induction evs as [|ev evs IH]; intros st.
  - cbn. auto.
  - rewrite run_cons. destruct (IH (step st ev)) as [IH1 IH2].
    assert (Hside : forall status r,
               errorMessage (onWriteStatus status st) = errorMessage st
               /\ errorMessage (onReceipt r st) = errorMessage st).
    { intros status r. split.
      - destruct (side_event_cases st status) as [[_ ->]|[_ ->]]; reflexivity.
      - destruct r; reflexivity. }
    split.
    + destruct IH1 as [IH1|IH1]; [|right; exact IH1].
      rewrite IH1. destruct ev as [w|status|r]; cbn [step].
      * destruct (submit_changes w st) as [_ [Hm|Hm]]; [left; exact Hm|right; exact Hm].
      * left. apply (Hside status None).
      * left. apply (Hside "" r).
    + intros Hno. rewrite IH2.
      * destruct ev as [w|status|r]; cbn [step].
        -- exfalso. apply (Hno w). left. reflexivity.
        -- apply (Hside status None).
        -- apply (Hside "" r).
      * intros w Hin. apply (Hno w). right. exact Hin.
Qed.

(** X15. In every state reached from mount by submits that run to
    completion, notifications and receipts, a [SUCCESS] status carries one
    receipt, the stored charge identifier and the receipt URL built from it;
    so the page a [submit()] opens in [SUCCESS] is the one the status data
    advertise. *)
Theorem success_data_consistent (evs : list Event) (w : World) :
  let st := run initialState evs in
  successDataConsistent st
  /\ (statusOf st = PAY_LIFECYCLESTATUS.SUCCESS ->
      exists url,
        receiptUrl (statusData (lifecycleStatus st)) = Some url
        /\ submit_calls w st = [CallWindowOpen url "_blank" "noopener,noreferrer"]).
Proof.
  cbv zeta.
  assert (Hinv : forall st, successDataConsistent st ->
                            successDataConsistent (run st evs)).
  { induction evs as [|ev evs IH]; intros st Hst; [exact Hst|].
    rewrite run_cons. apply IH.
    destruct ev as [w'|status|[r|]]; cbn [step].
    - destruct (isFresh st) eqn:Hf.
      + intros Hsucc. exfalso.
        unfold isFresh in Hf. apply andb_true_iff in Hf. destruct Hf as [Hf _].
        destruct (submit_changes w' st) as [[Hl|Hl] _].
        * rewrite Hl in Hsucc. rewrite Hsucc in Hf. discriminate.
        * unfold statusOf in Hl. congruence.
      + rewrite (proj1 (not_fresh_submit w' st Hf)). exact Hst.
    - destruct (side_event_cases st status) as [[_ ->]|[_ ->]]; [|exact Hst].
      intros Hsucc. discriminate.
    - rewrite onReceipt_Some. intros _. cbn. eauto.
    - exact Hst. }
  assert (Hc : successDataConsistent (run initialState evs)).
  { apply Hinv. intros H. discriminate. }
  split; [exact Hc|].
  intros Hs. destruct (Hc Hs) as (_ & _ & Hurl).
  exists (receiptUrlOf (chargeId (run initialState evs))). split; [exact Hurl|].
  unfold submit_calls. rewrite (submit_on_success w _ Hs). reflexivity.
Qed.

(** X16. The calls-status query ([enabled: !!transactionId]) is off at
    mount and is switched on by accepted batch submissions only: starting
    with an empty [transactionId], it is enabled after a [submit()] exactly
    when the batch-submission service accepted the batch with a non-empty
    identifier; and along any sequence of events a stored identifier is the
    initial one or the answer to a submission made by one of the submits. *)
Theorem calls_status_query_enabled (w : World) (st : PayProviderState)
    (evs : list Event) :
  callsStatusEnabled initialState = false
  /\ (transactionId st = "" ->
      (callsStatusEnabled (submit_state w st) = true
       <-> exists id, acceptedSubmission w st = Some id /\ id <> ""))
  /\ (transactionId (run st evs) = transactionId st
      \/ exists w' st',
           In (EvSubmit w') evs
           /\ acceptedSubmission w' st' = Some (transactionId (run st evs))).
Proof.
  split; [reflexivity|]. split.
  - intros Hempty. unfold callsStatusEnabled. rewrite submit_transactionId.
    destruct (acceptedSubmission w st) as [id|].
    + destruct (String.eqb_spec id "") as [->|Hne]; cbn.
      * split; [discriminate|]. intros (id & [= <-] & Hne). congruence.
      * split; [intros _; exists id; auto | reflexivity].
    + rewrite Hempty. cbn. split; [discriminate|]. intros (id & Hid & _). discriminate.
  - revert st. induction evs as [|ev evs IH]; intros st; [left; reflexivity|].
    rewrite run_cons. destruct (IH (step st ev)) as [IH1|(w' & st' & Hin & Hacc)].
    + rewrite IH1. destruct ev as [w'|status|r]; cbn [step].
      * rewrite submit_transactionId.
        destruct (acceptedSubmission w' st) as [id|] eqn:Hacc; [|left; reflexivity].
        right. exists w', st. split; [left; reflexivity|exact Hacc].
      * left. destruct (side_event_cases st status) as [[_ ->]|[_ ->]]; reflexivity.
      * left. destruct r; reflexivity.
    + right. exists w', st'. split; [right; exact Hin|exact Hacc].
Qed.
End MoreProperties.

Section HappyPath.
Context {I : Imports}.

(** X17. The happy path.  Whenever the batch-submission service accepts
    the batch in an attempt (after a prompt or not, after a chain switch or
    not), the submit leaves the status alone and stores the submission
    identifier and the hydrated charge identifier; the pending echo then
    gives [PENDING], and a receipt gives [SUCCESS] with that receipt, that
    charge identifier and its receipt URL. *)
Theorem accepted_submission_then_receipt (w : World) (st : PayProviderState)
    (id : string) (r : TransactionReceipt) :
  acceptedSubmission w st = Some id ->
  let s1 := step st (EvSubmit w) in
  let s2 := step s1 (EvWriteStatus "pending") in
  let s3 := step s2 (EvReceipt (Some r)) in
  lifecycleStatus s1 = lifecycleStatus st
  /\ transactionId s1 = id
  /\ statusOf s2 = PAY_LIFECYCLESTATUS.PENDING
  /\ statusOf s3 = PAY_LIFECYCLESTATUS.SUCCESS
  /\ transactionId s3 = id
  /\ exists h,
       hydrationReport w st = Some h
       /\ hydrationError h = None
       /\ chargeId s3 = hydratedChargeId h
       /\ statusData (lifecycleStatus s3) =
          {| code := None; error := None; message := None;
             transactionReceipts := Some [r];
             dataChargeId := Some (hydratedChargeId h);
             receiptUrl := Some (receiptUrlOf (hydratedChargeId h)) |}.
Proof.
  cbv zeta. cbn [step]. rewrite onReceipt_Some, onWriteStatus_pending.
  cbn [lifecycleStatus chargeId transactionId errorMessage statusData].
  unfold statusOf. cbn [lifecycleStatus statusName].
  observe_more. run_attempt w st.
  all: cbn in *; use_equations; intros Hacc; try discriminate.
  all: injection Hacc as <-.
  all: repeat split; try reflexivity.
  all: eexists; repeat split; eauto.
Qed.
End HappyPath.

(** * Concrete runs of the further properties *)

(** Run for X1: a prompted attempt and a submit in the paid state. *)
Lemma attempt_calls_in_order_run :
  (exists url,
     @submit_calls sampleImports okWorld paidState
       = [CallWindowOpen url "_blank" "noopener,noreferrer"]
     /\ (url = receiptUrlOf (chargeId paidState) \/ url = "https://keys.coinbase.com/fund"))
  /\ map phase (@submit_calls sampleImports promptedWorld initialState) = [1; 2; 4]
  /\ ascending (map phase (@submit_calls sampleImports promptedWorld initialState)) = true.
Proof.
  pose proof (@attempt_calls_in_order sampleImports okWorld paidState) as [H1 _].
  pose proof (@attempt_calls_in_order sampleImports promptedWorld initialState) as [_ H2].
  split; [exact (H1 eq_refl)|]. split; [reflexivity|].
  exact (proj2 (H2 eq_refl)).
Defined.

(** Run for X2: the declined chain switch is the last call. *)
Lemma attempt_stops_at_rejection_run :
  @submit_calls sampleImports insufficientThenSwitchDeclinedWorld initialState
    = [CallFetchContracts "0xA11CE"; CallSwitchChainAsync 8453]
  /\ @collaboratorThrew sampleImports insufficientThenSwitchDeclinedWorld initialState
     = Some (@ErrorObject sampleImports switchDeclined).
Proof.
  split; [reflexivity|].
  exact (proj2 (@attempt_stops_at_rejection sampleImports
                  insufficientThenSwitchDeclinedWorld initialState
                  [CallFetchContracts "0xA11CE"] [] (CallSwitchChainAsync 8453)
                  (@ErrorObject sampleImports switchDeclined) eq_refl eq_refl)).
Defined.

(** Run for X3: a wallet that is not a smart wallet is prompted first; the
    connected smart wallet is not prompted. *)
Lemma connection_prompt_run :
  hd_error (@submit_calls sampleImports promptedWorld initialState)
    = Some (CallConnectAsync "smartWalletOnly")
  /\ ~ In (CallConnectAsync "smartWalletOnly")
         (@submit_calls sampleImports okWorld initialState).
Proof.
  pose proof (@connection_prompt sampleImports promptedWorld initialState eq_refl) as [H1 _].
  pose proof (@connection_prompt sampleImports okWorld initialState eq_refl) as [_ H2].
  split; [exact (H1 eq_refl) | exact (H2 eq_refl "smartWalletOnly")].
Defined.

(** Run for X4: after the prompt, hydration is asked for the first account
    of the prompt, not for the address [useAccount] had. *)
Lemma hydration_address_run :
  In (CallFetchContracts "0xB0B") (@submit_calls sampleImports promptedWorld initialState)
  /\ ~ In (CallFetchContracts "0xA11CE")
         (@submit_calls sampleImports promptedWorld initialState).
Proof.
  split.
  - apply (@hydration_address sampleImports promptedWorld initialState "0xB0B" eq_refl).
    split; [discriminate|]. eexists. reflexivity.
  - intros Hin.
    apply (@hydration_address sampleImports promptedWorld initialState "0xA11CE" eq_refl)
      in Hin.
    destruct Hin as (_ & chain & Hres). discriminate Hres.
Defined.

(** Run for X5: the prompt answers with no account. *)
Lemma no_address_exit_run :
  lifecycleStatus (@submit_state sampleImports noAccountWorld initialState) =
    @errorStatus sampleImports PayErrorCode.UNEXPECTED_ERROR
      (Some "No connected address") (Some "No connected address")
  /\ @submit_calls sampleImports noAccountWorld initialState
     = [CallConnectAsync "smartWalletOnly"].
Proof.
  pose proof (@no_address_exit sampleImports noAccountWorld initialState None (Some 8453%Z)
                eq_refl eq_refl (or_introl eq_refl)) as (H1 & _ & _ & _ & H2).
  split; [exact H1 | exact H2].
Defined.

(** Run for X6: on chain 1 the switch to [base.id] is called; on the target
    chain it is not. *)
Lemma chain_switch_run :
  In (CallSwitchChainAsync 8453) (@submit_calls sampleImports otherChainWorld initialState)
  /\ ~ In (CallSwitchChainAsync 8453) (@submit_calls sampleImports okWorld initialState).
Proof.
  split.
  - apply (@chain_switch_iff sampleImports otherChainWorld initialState 8453).
    split; [reflexivity|].
    exists sampleHydration, (Some "0xA11CE"), (Some 1%Z). repeat split.
  - intros Hin.
    apply (@chain_switch_iff sampleImports okWorld initialState 8453) in Hin.
    destruct Hin as (_ & h & addr & chain & _ & _ & Hres & Hd).
    injection Hres as <- <-. discriminate Hd.
Defined.

(** Run for X7: the contracts submitted by the happy attempt are the
    hydrated ones. *)
Lemma submission_preconditions_run :
  exists h,
    @hydrationReport sampleImports okWorld initialState = Some h
    /\ hydrationError h = None
    /\ balanceCheck h = None
    /\ contracts h = Some ["approve"; "transferTokenPreApproved"].
Proof.
  pose proof (@submission_preconditions sampleImports okWorld initialState
                ["approve"; "transferTokenPreApproved"]
                (or_intror (or_introl eq_refl))) as (_ & _ & _ & H).
  exact H.
Defined.

(** Run for X8: an accepted and a declined batch submission. *)
Lemma transactionId_frame_run :
  transactionId (@submit_state sampleImports okWorld initialState) = "tx-1"
  /\ transactionId (@submit_state sampleImports writeDeclinedWorld initialState) = ""
  /\ lifecycleStatus (@submit_state sampleImports okWorld initialState)
     = lifecycleStatus initialState.
Proof.
  pose proof (@transactionId_frame sampleImports okWorld initialState) as [H1 H2].
  pose proof (@transactionId_frame sampleImports writeDeclinedWorld initialState) as [H3 _].
  split; [exact H1|]. split; [exact H3|].
  exact (proj1 (H2 "tx-1" eq_refl)).
Defined.

(** Run for X9: the connection prompt is declined, hydration is never
    called, [chargeId] stays empty. *)
Lemma chargeId_frame_run :
  @hydrationReport sampleImports connectionDeniedWorld initialState = None
  /\ chargeId (@submit_state sampleImports connectionDeniedWorld initialState) = "".
Proof.
  split; [reflexivity|].
  exact (@chargeId_frame sampleImports connectionDeniedWorld initialState eq_refl).
Defined.

(** Run for X10: the three exits.  The happy attempt leaves the status and
    the message alone; the declined prompt sets [ERROR] and the rejection
    text; the error that cannot be serialised sets the generic text and
    leaves the status [INIT]. *)
Lemma status_exit_run :
  lifecycleStatus (@submit_state sampleImports unserialisableRejectionWorld initialState)
    = lifecycleStatus initialState
  /\ errorMessage (@submit_state sampleImports unserialisableRejectionWorld initialState)
     = "Something went wrong. Please try again."
  /\ @submit_completion sampleImports unserialisableRejectionWorld initialState
     = Thrown (@ErrorObject sampleImports (@TypeError sampleImports)).
Proof.
  destruct (@status_exit sampleImports unserialisableRejectionWorld initialState)
    as [[_ H]|[(c & err & msg & H & _)|(e & He & _ & Hc & Hl & Hm)]].
  - discriminate H.
  - discriminate H.
  - injection He as <-. split; [exact Hl|]. split; [exact Hm | exact Hc].
Defined.

(** Run for X11: a retry after a declined prompt makes the calls of a first
    attempt. *)
Lemma fresh_attempts_agree_run :
  @submit_calls sampleImports okWorld deniedState
    = @submit_calls sampleImports okWorld initialState
  /\ chargeId (@submit_state sampleImports okWorld deniedState) = "charge-1".
Proof.
  pose proof (@fresh_attempts_agree sampleImports okWorld deniedState initialState
                eq_refl eq_refl) as (H1 & _ & _ & _ & _).
  split; [exact H1 | reflexivity].
Defined.

(** Run for X12: three submits in the funding dead end. *)
Lemma absorbed_submits_run :
  @run sampleImports unfundedState
    [EvSubmit okWorld; EvSubmit promptedWorld; EvSubmit okWorld] = unfundedState.
Proof.
  exact (proj1 (@absorbed_submits sampleImports unfundedState
                  [okWorld; promptedWorld; okWorld] eq_refl)).
Defined.


(** Run for X14: the text of a declined prompt survives the pending echo
    and the receipt. *)
Lemma errorMessage_never_cleared_run :
  errorMessage (@run sampleImports deniedState
                  [EvWriteStatus "pending"; @EvReceipt sampleImports (Some "receipt-1")])
  = "Request denied.".
Proof.
  pose proof (@errorMessage_never_cleared sampleImports deniedState
                [EvWriteStatus "pending"; @EvReceipt sampleImports (Some "receipt-1")])
    as [_ H].
  apply H. intros w Hin. in_cases Hin.
Defined.

(** Run for X15: in the paid state a submit opens the advertised URL. *)
Lemma success_data_consistent_run :
  exists url,
    receiptUrl (statusData (lifecycleStatus paidState)) = Some url
    /\ @submit_calls sampleImports promptedWorld paidState
       = [CallWindowOpen url "_blank" "noopener,noreferrer"].
Proof.
  pose proof (@success_data_consistent sampleImports
                [EvSubmit okWorld; @EvReceipt sampleImports (Some "receipt-1")]
                promptedWorld) as [_ H].
  exact (H eq_refl).
Defined.

(** Run for X16: the query is enabled by the happy attempt, not by a
    declined submission. *)
Lemma calls_status_query_enabled_run :
  callsStatusEnabled (@submit_state sampleImports okWorld initialState) = true
  /\ callsStatusEnabled (@submit_state sampleImports writeDeclinedWorld initialState) = false.
Proof.
  pose proof (@calls_status_query_enabled sampleImports okWorld initialState [])
    as (_ & H & _).
  split.
  - apply (H eq_refl). exists "tx-1". split; [reflexivity | discriminate].
  - reflexivity.
Defined.

(** Run for X17: prompt, hydration for the first account, submission,
    pending echo, receipt. *)
Lemma accepted_submission_then_receipt_run :
  statusOf (@run sampleImports initialState
              [EvSubmit promptedWorld; EvWriteStatus "pending";
               @EvReceipt sampleImports (Some "receipt-7")])
    = PAY_LIFECYCLESTATUS.SUCCESS
  /\ transactionId (@run sampleImports initialState
                      [EvSubmit promptedWorld; EvWriteStatus "pending";
                       @EvReceipt sampleImports (Some "receipt-7")]) = "tx-2".
Proof.
  pose proof (@accepted_submission_then_receipt sampleImports promptedWorld initialState
                "tx-2" "receipt-7" eq_refl) as (_ & _ & _ & H1 & H2 & _).
  split; [exact H1 | exact H2].
Defined.
